(** * PulseGuard monitoring core: probe, status reduction, dispatch, stream

    A shallow embedding of the monitoring core of the PulseGuard backend
    ([monitoring/models.py], [services/check_service.py],
    [tasks/check_runner.py], [services/notification_service.py] and
    [ServerStatusStreamView] of [views.py]) together with the properties
    the specification states about it.

    Conventions.
    - Python [int] is [Z]; Django [IntegerField]s are [Z] as well.
    - [str] is [string]; a nullable column or an [Optional] is an [option].
    - An aware [datetime] is the number of microseconds since the epoch,
      so [timedelta(seconds=n)] is [n * 1000000].
    - ORM tables keyed by a one-to-one key are [gmap]s, tables that are
      iterated or searched are lists in iteration order.
    - The outside world (network, mail transport, SMS gateway, wall
      clock, channel layer, event loop, collation of the database) is a
      set of oracles, the variables of the sections below.
    - Every reading of the wall clock is counted, also the ones that
      [auto_now_add] and [auto_now] take when a row is inserted or
      saved: the n-th reading returns [timezone_now n].
    - [None] as the result of a call stands for an exception that
      leaves it. *)

From Stdlib Require Import ZArith Lia Ascii String.
From stdpp Require Import base option list gmap strings pretty sorting.

Local Open Scope string_scope.
Local Open Scope Z_scope.

(** ** Python value conventions *)

Module Py.

(** Truth value of a [str]: the empty string is falsy. *)
Definition truthy (s : string) : bool := negb (String.eqb s "").

(** Truth value of an [Optional[str]]: [None] and [""] are falsy. *)
Definition truthy_opt (o : option string) : bool :=
  match o with
  | Some s => truthy s
  | None => false
  end.

(** [a or b] where [a] is an [Optional[str]] and [b] a [str]. *)
Definition or_str (a : option string) (b : string) : string :=
  match a with
  | Some s => if truthy s then s else b
  | None => b
  end.

(** [a or b] on integers: [0] is falsy. *)
Definition or_int (a b : Z) : Z := if a =? 0 then b else a.

(** [x in xs] for a list of string literals. *)
Definition str_in (x : string) (xs : list string) : bool :=
  existsb (String.eqb x) xs.

(** [x in xs] where [x] may be [None], which equals no string. *)
Definition opt_in (x : option string) (xs : list string) : bool :=
  match x with
  | Some s => str_in s xs
  | None => false
  end.

(** [str(n)] for an integer. *)
Definition str_of_int (n : Z) : string := pretty n.

End Py.

(** An aware datetime, in microseconds since the epoch. *)
Definition datetime : Type := Z.

(** [timedelta(seconds=n)], in microseconds. *)
Definition timedelta_seconds (n : Z) : Z := n * 1000000.

(** ** Data model ([monitoring/models.py]) *)

Record Organization := mkOrganization {
  org_id : Z
}.

Record User := mkUser {
  user_id : Z
}.

Record Server := mkServer {
  server_id : Z;
  owner : option User;
  organization : option Organization;
  name : string;
  protocol : string;
  host : string;
  port : Z;
  path : string;
  timeout : Z;
  server_status : string
}.

(** [Server.full_url]. *)
Definition full_url (s : Server) : string :=
  protocol s +:+ "://" +:+ host s +:+ ":" +:+ Py.str_of_int (port s) +:+ path s.

(** The dictionary returned by a check ([run_check]).  [response_time] is
    the rounded elapsed time, in hundredths of a millisecond. *)
Record CheckData := mkCheckData {
  cd_status : string;
  cd_status_code : option Z;
  cd_response_time : option Z;
  cd_error_message : option string
}.

Record PingResult := mkPingResult {
  ping_server : Z;
  ping_status : string;
  response_time : option Z;
  status_code : option Z;
  error_message : option string;
  check_timestamp : datetime
}.

(** One row per server; the table below is keyed by the server, which is
    the one-to-one key of the row.  [uptime_percentage] is a float
    column that no modelled operation computes with; it is carried in
    hundredths of a percent. *)
Record ServerStatus := mkServerStatus {
  status : string;
  uptime_percentage : Z;
  last_check : option datetime;
  last_up : option datetime;
  last_down : option datetime;
  consecutive_failures : Z;
  failure_threshold : Z;
  message : option string;
  status_updated_at : datetime
}.

(** The column defaults of [ServerStatus], as [get_or_create] fills them
    for a server that has no row yet. *)
Definition default_status (saved : datetime) : ServerStatus :=
  {| status := "unknown";
     uptime_percentage := 10000;
     last_check := None;
     last_up := None;
     last_down := None;
     consecutive_failures := 0;
     failure_threshold := 3;
     message := None;
     status_updated_at := saved |}.

Record NotificationConfig := mkNotificationConfig {
  config_id : Z;
  config_server : Z;
  notification_type : string;
  recipient : string;
  enabled : bool;
  notify_on_failure : bool;
  notify_on_recovery : bool;
  min_notification_interval : Z;
  updated_at : option datetime
}.

(** A billing account belongs to an organization or to a user (both
    links are nullable one-to-one keys). *)
Record UserAccount := mkUserAccount {
  account_id : Z;
  account_user : option Z;
  account_organization : option Z;
  sms_credits : Z;
  email_credits : Z
}.

(** [UserAccount.consume_sms]: the updated row and the returned flag; the
    save of the row is [save_consumed] below. *)
Definition consume_sms (a : UserAccount) : UserAccount * bool :=
  if sms_credits a <=? 0 then (a, false)
  else ({| account_id := account_id a;
           account_user := account_user a;
           account_organization := account_organization a;
           sms_credits := sms_credits a - 1;
           email_credits := email_credits a |}, true).

(** [UserAccount.consume_email]. *)
Definition consume_email (a : UserAccount) : UserAccount * bool :=
  if email_credits a <=? 0 then (a, false)
  else ({| account_id := account_id a;
           account_user := account_user a;
           account_organization := account_organization a;
           sms_credits := sms_credits a;
           email_credits := email_credits a - 1 |}, true).

(** ** Probe executor ([services/check_service.py]) *)

(** What [requests.get] does: it returns a response (its status code and
    the elapsed time measured around the call), raises
    [requests.Timeout], or raises any other exception, whose [str] is
    kept ([_check_http] catches every [Exception]). *)
Inductive HttpReply :=
| HttpResponse (code : Z) (elapsed : Z)
| HttpTimeout
| HttpError (text : string).

(** What [socket.create_connection] does: it connects, raises
    [socket.timeout], raises another [OSError], or raises an exception
    that is no [OSError] (a [UnicodeError] for a host that has no IDNA
    encoding, such as one with an empty label). *)
Inductive TcpReply :=
| TcpConnected (elapsed : Z)
| TcpTimeout
| TcpOSError (text : string)
| TcpRaised (text : string).

(** The network calls a check performs, in order. *)
Inductive NetCall :=
| HttpGet (url : string) (timeout : Z)
| TcpConnect (host : string) (port : Z) (timeout : Z).

Section HealthCheckService.

(** The network, as seen by one check. *)
Variable requests_get : string -> Z -> HttpReply.
Variable create_connection : string -> Z -> Z -> TcpReply.

(** [HealthCheckService.default_timeout]. *)
Variable default_timeout : Z.

Definition _check_http (server : Server) : CheckData * list NetCall :=
  let url := full_url server in
  let timeout := Py.or_int (timeout server) default_timeout in
  let data :=
    match requests_get url timeout with
    | HttpResponse code elapsed =>
        {| cd_status := if code <? 500 then "success" else "failure";
           cd_status_code := Some code;
           cd_response_time := Some elapsed;
           cd_error_message := Some "" |}
    | HttpTimeout =>
        {| cd_status := "timeout";
           cd_status_code := None;
           cd_response_time := None;
           cd_error_message := Some "timeout" |}
    | HttpError text =>
        {| cd_status := "error";
           cd_status_code := None;
           cd_response_time := None;
           cd_error_message := Some text |}
    end in
  (data, [HttpGet url timeout]).

(** [_check_tcp] has handlers for [socket.timeout] and [OSError] only:
    any other exception leaves it, and the caller with it.  [None]
    stands for that. *)
Definition _check_tcp (server : Server) : option CheckData * list NetCall :=
  let timeout := Py.or_int (timeout server) default_timeout in
  let data :=
    match create_connection (host server) (port server) timeout with
    | TcpConnected elapsed =>
        Some {| cd_status := "success";
                cd_status_code := None;
                cd_response_time := Some elapsed;
                cd_error_message := Some "" |}
    | TcpTimeout =>
        Some {| cd_status := "timeout";
                cd_status_code := None;
                cd_response_time := None;
                cd_error_message := Some "timeout" |}
    | TcpOSError text =>
        Some {| cd_status := "failure";
                cd_status_code := None;
                cd_response_time := None;
                cd_error_message := Some text |}
    | TcpRaised _ => None
    end in
  (data, [TcpConnect (host server) (port server) timeout]).

(** [HealthCheckService.run_check]: the outcome, or [None] when an
    exception leaves the call, and the network calls made. *)
Definition run_check (server : Server) : option CheckData * list NetCall :=
  if Py.str_in (protocol server) ["http"; "https"] then
    let '(data, calls) := _check_http server in (Some data, calls)
  else if String.eqb (protocol server) "tcp" then _check_tcp server
  else if String.eqb (protocol server) "icmp" then _check_tcp server
  else
    (Some {| cd_status := "error";
             cd_status_code := None;
             cd_response_time := None;
             cd_error_message := Some ("unsupported protocol: " +:+ protocol server) |},
     []).

End HealthCheckService.

(** ** The persistent store and the log of outside effects *)

Inductive Channel := Email | Sms | Webhook.

(** One hand-off to a channel transport ([send_mail], the SMS gateway or
    [requests.post]): what the rendered message is built from. *)
Record Delivery := mkDelivery {
  d_channel : Channel;
  d_recipient : string;
  d_is_recovery : bool;
  d_server_name : string;
  d_new_status : string;
  d_old_status : option string
}.

(** The hand-off a channel adapter makes for a config. *)
Definition delivery (ch : Channel) (server_name new_status : string)
    (to : string) (is_recovery : bool) (old_status : option string) : Delivery :=
  {| d_channel := ch;
     d_recipient := to;
     d_is_recovery := is_recovery;
     d_server_name := server_name;
     d_new_status := new_status;
     d_old_status := old_status |}.

(** One update for the group of a server, as [notify_subscribers]
    builds it. *)
Record Broadcast := mkBroadcast {
  b_group : string;
  b_ping : PingResult;
  b_status : ServerStatus
}.

(** The tables the core reads and writes, the transports' log, the
    updates handed to the channel layer ([broadcasts]), the updates that
    were only scheduled as tasks on a running event loop ([scheduled]),
    and the number of wall-clock readings taken so far. *)
Record World := mkWorld {
  servers : gmap Z Server;
  memberships : list (Z * Z);
  statuses : gmap Z ServerStatus;
  pings : list PingResult;
  configs : list NotificationConfig;
  accounts : list UserAccount;
  outbox : list (Delivery * bool);
  broadcasts : list Broadcast;
  scheduled : list Broadcast;
  clock_reads : nat
}.

Definition set_statuses (f : gmap Z ServerStatus -> gmap Z ServerStatus) (w : World) : World :=
  mkWorld (servers w) (memberships w) (f (statuses w)) (pings w) (configs w)
          (accounts w) (outbox w) (broadcasts w) (scheduled w) (clock_reads w).

Definition set_pings (f : list PingResult -> list PingResult) (w : World) : World :=
  mkWorld (servers w) (memberships w) (statuses w) (f (pings w)) (configs w)
          (accounts w) (outbox w) (broadcasts w) (scheduled w) (clock_reads w).

Definition set_configs (f : list NotificationConfig -> list NotificationConfig) (w : World) : World :=
  mkWorld (servers w) (memberships w) (statuses w) (pings w) (f (configs w))
          (accounts w) (outbox w) (broadcasts w) (scheduled w) (clock_reads w).

Definition set_accounts (f : list UserAccount -> list UserAccount) (w : World) : World :=
  mkWorld (servers w) (memberships w) (statuses w) (pings w) (configs w)
          (f (accounts w)) (outbox w) (broadcasts w) (scheduled w) (clock_reads w).

Definition set_outbox (f : list (Delivery * bool) -> list (Delivery * bool)) (w : World) : World :=
  mkWorld (servers w) (memberships w) (statuses w) (pings w) (configs w)
          (accounts w) (f (outbox w)) (broadcasts w) (scheduled w) (clock_reads w).

Definition set_broadcasts (f : list Broadcast -> list Broadcast) (w : World) : World :=
  mkWorld (servers w) (memberships w) (statuses w) (pings w) (configs w)
          (accounts w) (outbox w) (f (broadcasts w)) (scheduled w) (clock_reads w).

Definition set_scheduled (f : list Broadcast -> list Broadcast) (w : World) : World :=
  mkWorld (servers w) (memberships w) (statuses w) (pings w) (configs w)
          (accounts w) (outbox w) (broadcasts w) (f (scheduled w)) (clock_reads w).

Definition set_clock_reads (f : nat -> nat) (w : World) : World :=
  mkWorld (servers w) (memberships w) (statuses w) (pings w) (configs w)
          (accounts w) (outbox w) (broadcasts w) (scheduled w) (f (clock_reads w)).

(** The table after the row with the key of [a] is rewritten. *)
Definition save_account (a : UserAccount) (tbl : list UserAccount) : list UserAccount :=
  map (fun r => if account_id r =? account_id a then a else r) tbl.

(** The row of a config with [updated_at] set to [t]. *)
Definition touch (c : NotificationConfig) (t : datetime) : NotificationConfig :=
  {| config_id := config_id c;
     config_server := config_server c;
     notification_type := notification_type c;
     recipient := recipient c;
     enabled := enabled c;
     notify_on_failure := notify_on_failure c;
     notify_on_recovery := notify_on_recovery c;
     min_notification_interval := min_notification_interval c;
     updated_at := Some t |}.

(** The table after [updated_at] of the rows with the key of [c] is set
    to [t]. *)
Definition stamp_config (c : NotificationConfig) (t : datetime)
    (tbl : list NotificationConfig) : list NotificationConfig :=
  map (fun r => if config_id r =? config_id c then touch r t else r) tbl.

(** The reverse one-to-one accessor [organization.billing_account];
    [None] stands for [UserAccount.DoesNotExist]. *)
Definition org_billing_account (o : Organization) (tbl : list UserAccount) : option UserAccount :=
  List.find (fun a => bool_decide (account_organization a = Some (org_id o))) tbl.

(** The reverse one-to-one accessor [user.billing_account]. *)
Definition user_billing_account (u : User) (tbl : list UserAccount) : option UserAccount :=
  List.find (fun a => bool_decide (account_user a = Some (user_id u))) tbl.

(** ** Notification dispatcher ([services/notification_service.py]) *)

Section NotificationService.

(** [timezone.now()]: the value of the n-th reading of the wall clock. *)
Variable timezone_now : nat -> datetime.

(** The settings read by [NotificationService.__init__]. *)
Variable email_enabled : bool.
Variable sms_enabled : bool.

(** The SMS gateway: whether the client library can be imported, and
    the three credentials of the settings. *)
Variable twilio_installed : bool.
Variable twilio_account_sid : option string.
Variable twilio_auth_token : option string.
Variable twilio_phone_number : option string.

(** The channel transports: [transport n d] tells whether the hand-off
    of [d], made after [n] earlier hand-offs, returns ([true]) or
    raises ([false]; for a webhook also a non-2xx answer). *)
Variable transport : nat -> Delivery -> bool.

(** One reading of the wall clock. *)
Definition now (w : World) : datetime * World :=
  (timezone_now (clock_reads w), set_clock_reads S w).

(** One call of a transport, recorded in the log. *)
Definition hand_off (d : Delivery) (w : World) : bool * World :=
  let ok := transport (length (outbox w)) d in
  (ok, set_outbox (fun o => (o ++ [(d, ok)])%list) w).

(** The insert of a row of a [TimeStampedModel]: the clock is read for
    [created_at] ([auto_now_add]) and then once more for [updated_at]
    ([auto_now]); the second reading is returned. *)
Definition insert_timestamps (w : World) : datetime * World :=
  let '(_, w1) := now w in
  now w1.

(** [self.save(update_fields=[<counter>, "updated_at"])] at the end of
    [consume_email] and [consume_sms]: [auto_now] reads the clock for the
    [updated_at] of the account, a column that is not carried here, and
    the row is rewritten. *)
Definition save_consumed (a : UserAccount) (w : World) : World :=
  let '(_, w1) := now w in
  set_accounts (save_account a) w1.

(** Stamping the cooldown cursor after a send:
    [config.updated_at = timezone.now()] reads the clock, and
    [config.save(update_fields=["updated_at"])] reads it again through
    [auto_now] and stores that second reading. *)
Definition stamp (config : NotificationConfig) (w : World) : World :=
  let '(_, w1) := now w in
  let '(t, w2) := now w1 in
  set_configs (stamp_config config t) w2.

(** [NotificationConfig.objects.create(...)]: the row is inserted with
    the [updated_at] the insert gives it. *)
Definition create_config (config : NotificationConfig) (w : World) : World :=
  let '(t, w1) := insert_timestamps w in
  set_configs (fun tbl => (tbl ++ [touch config t])%list) w1.

(** [config.save()] of a stored row, as an update through
    [NotificationConfigViewSet] or the admin makes it: the columns are
    rewritten and [auto_now] stamps [updated_at] with the time of the
    save. *)
Definition save_config (config : NotificationConfig) (w : World) : World :=
  let '(t, w1) := now w in
  set_configs
    (map (fun r => if config_id r =? config_id config then touch config t else r))
    w1.

Definition _can_send_notification (config : NotificationConfig) (w : World)
    : bool * World :=
  match updated_at config with
  | None => (true, w)
  | Some last =>
      let min_interval := timedelta_seconds (min_notification_interval config) in
      let '(t, w1) := now w in
      let time_since_last := t - last in
      (min_interval <=? time_since_last, w1)
  end.

Definition _get_account (server : Server) (w : World) : option UserAccount :=
  let of_owner :=
    match owner server with
    | None => None
    | Some u => user_billing_account u (accounts w)
    end in
  match organization server with
  | Some o =>
      match org_billing_account o (accounts w) with
      | Some a => Some a
      | None => of_owner
      end
  | None => of_owner
  end.

Definition _send_email (server : Server) (st : ServerStatus)
    (config : NotificationConfig) (is_recovery : bool) (w : World) : World :=
  if negb email_enabled then w
  else
    let account := _get_account server w in
    if match account with Some a => email_credits a <=? 0 | None => false end
    then w
    else
      let d := delivery Email (name server) (status st) (recipient config)
                 is_recovery None in
      let '(ok, w1) := hand_off d w in
      if ok then
        let w2 :=
          match account with
          | Some a =>
              let '(a', consumed) := consume_email a in
              if consumed then save_consumed a' w1 else w1
          | None => w1
          end in
        stamp config w2
      else w1.

Definition _send_sms (server : Server) (st : ServerStatus)
    (config : NotificationConfig) (is_recovery : bool) (w : World) : World :=
  if negb sms_enabled then w
  else
    let account := _get_account server w in
    if match account with Some a => sms_credits a <=? 0 | None => false end
    then w
    else if negb twilio_installed then w
    else if negb (Py.truthy_opt twilio_account_sid
                  && Py.truthy_opt twilio_auth_token
                  && Py.truthy_opt twilio_phone_number) then w
    else
      let d := delivery Sms (name server) (status st) (recipient config)
                 is_recovery None in
      let '(ok, w1) := hand_off d w in
      if ok then
        let w2 :=
          match account with
          | Some a =>
              let '(a', consumed) := consume_sms a in
              if consumed then save_consumed a' w1 else w1
          | None => w1
          end in
        stamp config w2
      else w1.

(** The payload is built before the request is made, and its
    [timestamp] entry is a reading of the clock. *)
Definition _send_webhook (server : Server) (st : ServerStatus)
    (config : NotificationConfig) (is_recovery : bool)
    (previous_status : option string) (w : World) : World :=
  let '(_, w0) := now w in
  let d := delivery Webhook (name server) (status st) (recipient config)
               is_recovery previous_status in
  let '(ok, w1) := hand_off d w0 in
  if ok then stamp config w1 else w1.

(** The body of the loop over the selected configs. *)
Definition notify_config (server : Server) (st : ServerStatus)
    (previous_status : option string) (is_recovery : bool)
    (w : World) (config : NotificationConfig) : World :=
  let '(can, w1) := _can_send_notification config w in
  if negb can then w1
  else if String.eqb (notification_type config) "email" then
    _send_email server st config is_recovery w1
  else if String.eqb (notification_type config) "sms" then
    _send_sms server st config is_recovery w1
  else if String.eqb (notification_type config) "webhook" then
    _send_webhook server st config is_recovery previous_status w1
  else w1.

Definition is_failure (st : ServerStatus) : bool :=
  Py.str_in (status st) ["down"; "degraded"].

Definition is_recovery (st : ServerStatus) (previous_status : option string) : bool :=
  Py.opt_in previous_status ["down"; "degraded"] && String.eqb (status st) "up".

(** The default ordering of [NotificationConfig] within one server:
    by [notification_type]. *)
Definition by_notification_type (a b : NotificationConfig) : Prop :=
  String.leb (notification_type a) (notification_type b).

#[local] Instance by_notification_type_dec : RelDecision by_notification_type :=
  fun a b => decide (Is_true (String.leb (notification_type a) (notification_type b))).

(** The configs selected for a transition, in iteration order. *)
Definition selected_configs (server : Server) (st : ServerStatus)
    (previous_status : option string) (w : World) : list NotificationConfig :=
  let configs0 :=
    List.filter (fun c => (config_server c =? server_id server) && enabled c)
                (configs w) in
  let configs1 :=
    if is_failure st then List.filter notify_on_failure configs0
    else if is_recovery st previous_status then List.filter notify_on_recovery configs0
    else configs0 in
  merge_sort by_notification_type configs1.

Definition notify_status_change (server : Server) (st : ServerStatus)
    (previous_status : option string) (w : World) : World :=
  if Py.truthy_opt previous_status
     && bool_decide (previous_status = Some (status st)) then w
  else if negb (is_failure st) && negb (is_recovery st previous_status) then w
  else
    fold_left
      (notify_config server st previous_status (is_recovery st previous_status))
      (selected_configs server st previous_status w) w.

End NotificationService.

(** ** Status aggregation and the check cycle ([tasks/check_runner.py]) *)

(** The status reduction: the update [run_all_checks] applies to the
    status row of a server, given the outcome of its check. *)
Definition reduce_status (status_obj : ServerStatus) (data : CheckData)
    (now : datetime) : ServerStatus :=
  if String.eqb (cd_status data) "success" then
    {| status := "up";
       uptime_percentage := uptime_percentage status_obj;
       last_check := Some now;
       last_up := Some now;
       last_down := last_down status_obj;
       consecutive_failures := 0;
       failure_threshold := failure_threshold status_obj;
       message := Some "OK";
       status_updated_at := status_updated_at status_obj |}
  else
    let failures := consecutive_failures status_obj + 1 in
    {| status := if failure_threshold status_obj <=? failures
                 then "down" else "degraded";
       uptime_percentage := uptime_percentage status_obj;
       last_check := Some now;
       last_up := last_up status_obj;
       last_down := Some now;
       consecutive_failures := failures;
       failure_threshold := failure_threshold status_obj;
       message := Some (Py.or_str (cd_error_message data) (cd_status data));
       status_updated_at := status_updated_at status_obj |}.

(** [StatusConsumer._group_name]. *)
Definition _group_name (sid : Z) : string := "server_" +:+ Py.str_of_int sid.

(** [_group_send], run to its end: without a configured channel layer
    ([get_channel_layer()] is [None]) it returns without sending;
    otherwise [channel_layer.group_send] is awaited, and is taken to
    return. *)
Definition _group_send (channel_layer : bool) (update : Broadcast) (w : World) : World :=
  if channel_layer then set_broadcasts (fun b => (b ++ [update])%list) w
  else w.

(** [notify_subscribers]: the update is built from the ping and the
    status row; under a running event loop the send is only created as
    a task on that loop, otherwise it is carried out before the call
    returns. *)
Definition notify_subscribers (running_loop channel_layer : bool)
    (ping : PingResult) (st : ServerStatus) (w : World) : World :=
  let update := {| b_group := _group_name (ping_server ping);
                   b_ping := ping;
                   b_status := st |} in
  if running_loop then set_scheduled (fun b => (b ++ [update])%list) w
  else _group_send channel_layer update w.

(** [Meta.ordering = ["name"]] of [Server]: a queryset of servers comes
    sorted by name, in the order [name_le] of the database on that
    column. *)
Definition by_name (name_le : string -> string -> bool) (a b : Server) : Prop :=
  name_le (name a) (name b).

#[local] Instance by_name_dec (name_le : string -> string -> bool) :
  RelDecision (by_name name_le) :=
  fun a b => decide (Is_true (name_le (name a) (name b))).

(** The rows of the server table a filter keeps, in queryset order. *)
Definition server_objects_filter (name_le : string -> string -> bool)
    (keep : Server -> bool) (w : World) : list Server :=
  merge_sort (by_name name_le) (List.filter keep (map snd (map_to_list (servers w)))).

Section CheckRunner.

Variable timezone_now : nat -> datetime.
Variable email_enabled : bool.
Variable sms_enabled : bool.
Variable twilio_installed : bool.
Variable twilio_account_sid : option string.
Variable twilio_auth_token : option string.
Variable twilio_phone_number : option string.
Variable transport : nat -> Delivery -> bool.

(** The [service] argument: what [service.run_check] returns for a
    server.  The cycle is modelled for a service that returns for every
    server it is asked about; an exception that leaves [run_check]
    leaves [run_all_checks] as well. *)
Variable service : Server -> CheckData.

(** Whether the calling thread has a running event loop, and whether a
    channel layer is configured. *)
Variable running_loop : bool.
Variable channel_layer : bool.

(** The order of the database on [server.name]. *)
Variable name_le : string -> string -> bool.

(** [PingResult.objects.create(...)]: the insert reads the clock for
    the two timestamp columns of the row, which are not carried here. *)
Definition create_ping (ping : PingResult) (w : World) : World :=
  let '(_, w1) := insert_timestamps timezone_now w in
  set_pings (cons ping) w1.

(** [ServerStatus.objects.get_or_create(server=server)]. *)
Definition get_or_create (sid : Z) (w : World) : ServerStatus * bool * World :=
  match statuses w !! sid with
  | Some row => (row, false, w)
  | None =>
      let '(t, w1) := insert_timestamps timezone_now w in
      let row := default_status t in
      (row, true, set_statuses (insert sid row) w1)
  end.

(** [status_obj.save()]: the row is written, [updated_at] is refreshed. *)
Definition save_status (sid : Z) (st : ServerStatus) (w : World)
    : ServerStatus * World :=
  let '(t, w1) := now timezone_now w in
  let row :=
    {| status := status st;
       uptime_percentage := uptime_percentage st;
       last_check := last_check st;
       last_up := last_up st;
       last_down := last_down st;
       consecutive_failures := consecutive_failures st;
       failure_threshold := failure_threshold st;
       message := message st;
       status_updated_at := t |} in
  (row, set_statuses (insert sid row) w1).

(** The body of the loop of [run_all_checks], for one server. *)
Definition check_server (now : datetime) (send_notifications : bool)
    (w : World) (server : Server) : World * (Z * string) :=
  let data := service server in
  let ping :=
    {| ping_server := server_id server;
       ping_status := cd_status data;
       response_time := cd_response_time data;
       status_code := cd_status_code data;
       error_message := cd_error_message data;
       check_timestamp := now |} in
  let w1 := create_ping ping w in
  let '(status_obj, _, w2) := get_or_create (server_id server) w1 in
  let old_status := status status_obj in
  let '(status_obj', w3) :=
    save_status (server_id server) (reduce_status status_obj data now) w2 in
  let w4 := notify_subscribers running_loop channel_layer ping status_obj' w3 in
  let w5 :=
    if send_notifications && negb (String.eqb old_status (status status_obj')) then
      notify_status_change timezone_now email_enabled sms_enabled
        twilio_installed twilio_account_sid twilio_auth_token
        twilio_phone_number transport server status_obj' (Some old_status) w4
    else w4 in
  (w5, (server_id server, cd_status data)).

(** The loop of [run_all_checks] over the servers to check. *)
Fixpoint check_servers (now : datetime) (send_notifications : bool)
    (queryset : list Server) (w : World) : World * list (Z * string) :=
  match queryset with
  | [] => (w, [])
  | server :: rest =>
      let '(w1, r) := check_server now send_notifications w server in
      let '(w2, rs) := check_servers now send_notifications rest w1 in
      (w2, r :: rs)
  end.

(** The active servers, [Server.objects.filter(status="active")]. *)
Definition active_servers (w : World) : list Server :=
  server_objects_filter name_le (fun s => String.eqb (server_status s) "active") w.

(** [run_all_checks(service, now, queryset, send_notifications)]. *)
Definition run_all_checks (now_arg : option datetime)
    (queryset : option (list Server)) (send_notifications : bool)
    (w : World) : World * list (Z * string) :=
  let '(t, w1) :=
    match now_arg with
    | Some t => (t, w)
    | None => now timezone_now w
    end in
  let servers :=
    match queryset with
    | Some q => q
    | None => active_servers w1
    end in
  check_servers t send_notifications servers w1.

End CheckRunner.

(** ** Resumable event stream ([ServerStatusStreamView], [views.py]) *)

(** [_organization_ids(user)]. *)
Definition _organization_ids (uid : Z) (w : World) : list Z :=
  map snd (List.filter (fun m => fst m =? uid) (memberships w)).

(** [s.split(",")]. *)
Fixpoint split_comma_aux (acc : string) (s : string) : list string :=
  match s with
  | EmptyString => [acc]
  | String c rest =>
      if Ascii.eqb c ","%char then acc :: split_comma_aux "" rest
      else split_comma_aux (acc +:+ String c "") rest
  end.

Definition split_comma (s : string) : list string := split_comma_aux "" s.

(** The query parameters of one request, as [get] binds them: [since]
    already parsed into a datetime, [limit] already converted by [int]. *)
Record StreamRequest := mkStreamRequest {
  req_user : Z;
  status_filter : option string;
  server_ids : option string;
  since_dt : option datetime;
  ping_limit : Z
}.

(** What the generator yields. *)
Inductive Chunk :=
| Retry (ms : Z)
| StatusEvent (sid : Z) (server_name : string) (row : ServerStatus)
| PingEvent (sid : Z) (server_name : string) (ping : PingResult)
| Heartbeat.

(** How the generator stops: it returns, or an exception leaves it. *)
Inductive StreamEnd := StreamClosed | StreamRaised.


Definition is_ping_event (c : Chunk) : bool :=
  match c with PingEvent _ _ _ => true | _ => false end.

Section ServerStatusStreamView.

(** The conversion the ORM applies to each value of an [id__in]
    lookup; [None] stands for its [ValueError]. *)
Variable int_of_str : string -> option Z.

(** The order of the database on [server.name]. *)
Variable name_le : string -> string -> bool.

(** [ids = [sid for sid in server_ids.split(",") if sid]], converted for
    the lookup.  The outer [None] is a failed conversion, the inner one
    an absent filter. *)
Definition id_filter (r : StreamRequest) : option (option (list Z)) :=
  match server_ids r with
  | Some s =>
      if Py.truthy s then
        match mapM int_of_str (List.filter Py.truthy (split_comma s)) with
        | Some ids => Some (Some ids)
        | None => None
        end
      else Some None
  | None => Some None
  end.

(** [server__organization_id__in=org_ids], with the optional
    [server__id__in=ids]: a row is kept with its server. *)
Definition visible_server (org_ids : list Z) (ids : option (list Z))
    (sid : Z) (w : World) : option Server :=
  match servers w !! sid with
  | Some srv =>
      match organization srv with
      | Some o =>
          if bool_decide (org_id o ∈ org_ids)
             && match ids with
                | Some l => bool_decide (server_id srv ∈ l)
                | None => true
                end
          then Some srv else None
      | None => None
      end
  | None => None
  end.

Definition newer_than (since : option datetime) (t : datetime) : bool :=
  match since with
  | Some s => s <? t
  | None => true
  end.

Definition by_server_name (a b : Server * ServerStatus) : Prop :=
  name_le (name (fst a)) (name (fst b)).

Definition by_check_timestamp_desc (a b : Server * PingResult) : Prop :=
  check_timestamp (snd b) <= check_timestamp (snd a).

#[local] Instance by_server_name_dec : RelDecision by_server_name :=
  fun a b => decide (Is_true (name_le (name (fst a)) (name (fst b)))).

#[local] Instance by_check_timestamp_desc_dec : RelDecision by_check_timestamp_desc :=
  fun a b => decide (check_timestamp (snd b) <= check_timestamp (snd a)).

(** The status rows of the stream, joined with their servers. *)
Definition stream_statuses (r : StreamRequest) (ids : option (list Z))
    (w : World) : list (Server * ServerStatus) :=
  let org_ids := _organization_ids (req_user r) w in
  let rows :=
    omap (fun kv : Z * ServerStatus =>
            match visible_server org_ids ids (fst kv) w with
            | Some srv =>
                if match status_filter r with
                   | Some f => if Py.truthy f then String.eqb (status (snd kv)) f else true
                   | None => true
                   end
                   && newer_than (since_dt r) (status_updated_at (snd kv))
                then Some (srv, snd kv) else None
            | None => None
            end)
         (map_to_list (statuses w)) in
  merge_sort by_server_name rows.

(** The ping rows of the stream before the limit is applied. *)
Definition stream_pings (r : StreamRequest) (ids : option (list Z))
    (w : World) : list (Server * PingResult) :=
  let org_ids := _organization_ids (req_user r) w in
  let rows :=
    omap (fun p : PingResult =>
            match visible_server org_ids ids (ping_server p) w with
            | Some srv =>
                if newer_than (since_dt r) (check_timestamp p)
                then Some (srv, p) else None
            | None => None
            end)
         (pings w) in
  merge_sort by_check_timestamp_desc rows.

(** The generator [event_stream] of one request, run to its end.  The
    slice [[:ping_limit]] of a queryset raises for a negative bound. *)
Definition event_stream (r : StreamRequest) (w : World) : list Chunk * StreamEnd :=
  let retry := [Retry 5000] in
  match id_filter r with
  | None => (retry, StreamRaised)
  | Some ids =>
      let status_events :=
        map (fun sr : Server * ServerStatus =>
               StatusEvent (server_id (fst sr)) (name (fst sr)) (snd sr))
            (stream_statuses r ids w) in
      if ping_limit r <? 0 then ((retry ++ status_events)%list, StreamRaised)
      else
        let ping_events :=
          map (fun sp : Server * PingResult =>
                 PingEvent (server_id (fst sp)) (name (fst sp)) (snd sp))
              (take (Z.to_nat (ping_limit r)) (stream_pings r ids w)) in
        ((retry ++ status_events ++ ping_events ++ [Heartbeat])%list, StreamClosed)
  end.

End ServerStatusStreamView.

(** ** Manual trigger ([RunChecksView], [views.py]) *)

(** The requesting user, as the view reads it. *)
Record RequestUser := mkRequestUser {
  ru_id : Z;
  is_staff : bool
}.

(** The answer of the view: [PermissionDenied], or the count and the
    result list. *)
Inductive ChecksResponse :=
| ChecksDenied
| ChecksRan (count : nat) (results : list (Z * string)).

Section RunChecksView.

Variable timezone_now : nat -> datetime.
Variable email_enabled : bool.
Variable sms_enabled : bool.
Variable twilio_installed : bool.
Variable twilio_account_sid : option string.
Variable twilio_auth_token : option string.
Variable twilio_phone_number : option string.
Variable transport : nat -> Delivery -> bool.

(** The checks of the default [HealthCheckService], on servers for
    which they return. *)
Variable service : Server -> CheckData.

Variable running_loop : bool.
Variable channel_layer : bool.
Variable name_le : string -> string -> bool.

(** The [role] column of the membership table; a membership is
    identified by its user and organization ([unique_together]). *)
Variable membership_role : Z -> Z -> string.

(** [Membership.objects.filter(user=..., role__in=["owner", "admin"])],
    as the list of its organization ids. *)
Definition admin_org_ids (uid : Z) (w : World) : list Z :=
  map snd
    (List.filter
       (fun m => (fst m =? uid)
                 && Py.str_in (membership_role (fst m) (snd m)) ["owner"; "admin"])
       (memberships w)).

(** [Server.objects.filter(organization_id__in=org_ids)]. *)
Definition servers_of_orgs (org_ids : list Z) (w : World) : list Server :=
  server_objects_filter name_le
    (fun s => match organization s with
              | Some o => bool_decide (org_id o ∈ org_ids)
              | None => false
              end)
    w.

(** The organizations whose servers the user may trigger, [None] when
    the request is refused. *)
Definition trigger_org_ids (user : RequestUser) (w : World) : option (list Z) :=
  if is_staff user then Some (_organization_ids (ru_id user) w)
  else
    match admin_org_ids (ru_id user) w with
    | [] => None
    | ids => Some ids
    end.

(** [RunChecksView.post]. *)
Definition run_checks_post (user : RequestUser) (w : World) : World * ChecksResponse :=
  match trigger_org_ids user w with
  | None => (w, ChecksDenied)
  | Some org_ids =>
      let queryset := servers_of_orgs org_ids w in
      match org_ids with
      | [] => (w, ChecksRan 0 [])
      | _ =>
          let '(w1, results) :=
            run_all_checks timezone_now email_enabled sms_enabled twilio_installed
              twilio_account_sid twilio_auth_token twilio_phone_number transport
              service running_loop channel_layer name_le
              None (Some queryset) true w in
          (w1, ChecksRan (length results) results)
      end
  end.

End RunChecksView.

(** ** Specification vocabulary *)

(** The invariant the data model states for a status row. *)
Definition status_invariant (s : ServerStatus) : Prop :=
  (status s = "down" -> failure_threshold s <= consecutive_failures s) /\
  (status s = "degraded" -> 0 < consecutive_failures s < failure_threshold s) /\
  (status s = "up" -> consecutive_failures s = 0).

(** A status value that a reduction can produce. *)
Definition reduced_status (v : string) : Prop :=
  v = "up" \/ v = "down" \/ v = "degraded".

(** A run of check cycles seen from one server: the outcome of its check
    and the cycle's [now], cycle after cycle. *)
Definition reduce_all (s : ServerStatus) (steps : list (CheckData * datetime))
    : ServerStatus :=
  fold_left (fun acc step => reduce_status acc (fst step) (snd step)) steps s.

(** The status values a row goes through during such a run, the initial
    one first. *)
Fixpoint status_trace (s : ServerStatus) (steps : list (CheckData * datetime))
    : list string :=
  match steps with
  | [] => [status s]
  | step :: rest =>
      status s :: status_trace (reduce_status s (fst step) (snd step)) rest
  end.

(** No step of the trace goes from [up] straight to [down]. *)
Definition no_up_to_down (trace : list string) : Prop :=
  forall i : nat, trace !! i = Some "up" -> trace !! S i <> Some "down".

Definition non_success (step : CheckData * datetime) : Prop :=
  cd_status (fst step) <> "success".

(** The hysteresis property for threshold [T], as the specification
    words it: the first two parts are about runs of non-success
    outcomes, the third about any run. *)
Definition hysteresis (T : Z) : Prop :=
  forall (s : ServerStatus) (steps : list (CheckData * datetime)),
    failure_threshold s = T ->
    status s = "up" ->
    consecutive_failures s = 0 ->
    (Forall non_success steps -> Z.of_nat (length steps) = T ->
       status (reduce_all s steps) = "down") /\
    (Forall non_success steps -> 1 <= Z.of_nat (length steps) <= T - 1 ->
       status (reduce_all s steps) = "degraded") /\
    no_up_to_down (status_trace s steps).

(** The servers a cycle goes through, in the order it goes through
    them. *)
Definition servers_checked (name_le : string -> string -> bool)
    (queryset : option (list Server)) (w : World) : list Server :=
  match queryset with
  | Some q => q
  | None => active_servers name_le w
  end.

(** The row an iteration of the cycle starts from for a server: the
    stored one, or the defaults as the iteration inserts them (the
    insert takes the fourth clock reading of the iteration for
    [updated_at], after the two of the ping and the one for
    [created_at]). *)
Definition prior_status (timezone_now : nat -> datetime) (sid : Z) (w : World)
    : ServerStatus :=
  match statuses w !! sid with
  | Some row => row
  | None => default_status (timezone_now (clock_reads w + 3)%nat)
  end.

(** The row of a server exists and carries a reduced status. *)
Definition has_reduced_row (sid : Z) (w : World) : Prop :=
  exists row, statuses w !! sid = Some row /\ reduced_status (status row).

(** A transition into [down] or [degraded]. *)
Definition failure_alert (new : string) : Prop :=
  new = "down" \/ new = "degraded".

(** A transition from [down] or [degraded] to [up]. *)
Definition recovery (old : option string) (new : string) : Prop :=
  (old = Some "down" \/ old = Some "degraded") /\ new = "up".



(** ** Sample data *)

Definition check_failure : CheckData :=
  {| cd_status := "failure";
     cd_status_code := None;
     cd_response_time := None;
     cd_error_message := Some "connection refused" |}.

Definition check_success : CheckData :=
  {| cd_status := "success";
     cd_status_code := Some 200;
     cd_response_time := Some 5000;
     cd_error_message := Some "" |}.

(** A status row with the given status, threshold and failure count. *)
Definition status_row (v : string) (threshold failures : Z) : ServerStatus :=
  {| status := v;
     uptime_percentage := 10000;
     last_check := Some 0;
     last_up := None;
     last_down := None;
     consecutive_failures := failures;
     failure_threshold := threshold;
     message := None;
     status_updated_at := 0 |}.

Definition sample_org : Organization := {| org_id := 5 |}.

Definition sample_user : User := {| user_id := 7 |}.

Definition sample_server : Server :=
  {| server_id := 1;
     owner := Some sample_user;
     organization := Some sample_org;
     name := "api-server";
     protocol := "https";
     host := "example.com";
     port := 443;
     path := "/health";
     timeout := 5;
     server_status := "active" |}.

(** An enabled config of the sample server, last stamped at the epoch. *)
Definition sample_config (kind : string) : NotificationConfig :=
  {| config_id := 1;
     config_server := 1;
     notification_type := kind;
     recipient := "ops@example.com";
     enabled := true;
     notify_on_failure := true;
     notify_on_recovery := true;
     min_notification_interval := 300;
     updated_at := Some 0 |}.

(** The billing account of the sample organization. *)
Definition sample_account (sms email : Z) : UserAccount :=
  {| account_id := 1;
     account_user := None;
     account_organization := Some 5;
     sms_credits := sms;
     email_credits := email |}.

(** A store with the sample server, not checked yet. *)
Definition sample_world (cfgs : list NotificationConfig) (accts : list UserAccount)
    : World :=
  {| servers := {[ 1 := sample_server ]};
     memberships := [(7, 5)];
     statuses := ∅;
     pings := [];
     configs := cfgs;
     accounts := accts;
     outbox := [];
     broadcasts := [];
     scheduled := [];
     clock_reads := 0 |}.

(** A store with the sample server checked once: a status row and a
    ping, both written within the first second after the epoch. *)
Definition checked_world : World :=
  {| servers := {[ 1 := sample_server ]};
     memberships := [(7, 5)];
     statuses := {[ 1 := status_row "up" 3 0 ]};
     pings := [ {| ping_server := 1; ping_status := "success";
                   response_time := Some 12050; status_code := Some 200;
                   error_message := Some ""; check_timestamp := 10 |} ];
     configs := [];
     accounts := [];
     outbox := [];
     broadcasts := [];
     scheduled := [];
     clock_reads := 0 |}.

(** Two more servers: an active one and one under maintenance. *)
Definition database_server : Server :=
  {| server_id := 2;
     owner := Some sample_user;
     organization := Some sample_org;
     name := "db-primary";
     protocol := "tcp";
     host := "db.example.com";
     port := 5432;
     path := "/";
     timeout := 0;
     server_status := "active" |}.

Definition parked_server : Server :=
  {| server_id := 3;
     owner := Some sample_user;
     organization := Some sample_org;
     name := "batch";
     protocol := "https";
     host := "batch.example.com";
     port := 443;
     path := "/";
     timeout := 5;
     server_status := "maintenance" |}.

(** A store with the three servers, none checked yet. *)
Definition fleet_world : World :=
  {| servers := {[ 1 := sample_server; 2 := database_server; 3 := parked_server ]};
     memberships := [(7, 5)];
     statuses := ∅;
     pings := [];
     configs := [];
     accounts := [];
     outbox := [];
     broadcasts := [];
     scheduled := [];
     clock_reads := 0 |}.

(** A store with the sample server at a given status row and an enabled
    email config of that server, whose cooldown elapsed long ago. *)
Definition watched_world (row : ServerStatus) : World :=
  {| servers := {[ 1 := sample_server ]};
     memberships := [(7, 5)];
     statuses := {[ 1 := row ]};
     pings := [];
     configs := [sample_config "email"];
     accounts := [];
     outbox := [];
     broadcasts := [];
     scheduled := [];
     clock_reads := 0 |}.

(** A wall clock that starts an hour after the epoch and advances by a
    second at each reading. *)
Definition sample_clock (n : nat) : datetime :=
  timedelta_seconds (3600 + Z.of_nat n).

(** The next reading of the sample clock in a store. *)
Definition next_reading (w : World) : datetime := sample_clock (clock_reads w).

(** The dispatcher with every channel enabled, a configured gateway and
    transports that always succeed. *)
Definition sample_notify : Server -> ServerStatus -> option string -> World -> World :=
  notify_status_change sample_clock true true true
    (Some "AC00") (Some "token") (Some "+15550000000") (fun _ _ => true).

(** A request of the sample user with a cursor and a limit. *)
Definition stream_request (since : datetime) (limit : Z) : StreamRequest :=
  {| req_user := 7;
     status_filter := None;
     server_ids := None;
     since_dt := Some since;
     ping_limit := limit |}.

(** ** Further vocabulary *)

(** The outcome values of [PingResult.STATUS_CHOICES]. *)
Definition ping_status_choice (v : string) : Prop :=
  v = "success" \/ v = "failure" \/ v = "timeout" \/ v = "error".

(** The ping a cycle records for a server. *)
Definition ping_of (service : Server -> CheckData) (t : datetime) (server : Server)
    : PingResult :=
  {| ping_server := server_id server;
     ping_status := cd_status (service server);
     response_time := cd_response_time (service server);
     status_code := cd_status_code (service server);
     error_message := cd_error_message (service server);
     check_timestamp := t |}.

(** [",".join(pieces)]. *)
Fixpoint join_comma (pieces : list string) : string :=
  match pieces with
  | [] => ""
  | [piece] => piece
  | piece :: rest => piece +:+ "," +:+ join_comma rest
  end.

(** The number of commas of a string. *)
Fixpoint count_commas (s : string) : nat :=
  match s with
  | EmptyString => 0%nat
  | String c rest =>
      if Ascii.eqb c ","%char then S (count_commas rest) else count_commas rest
  end.

(** The check timestamps of the ping events of a stream, in order. *)
Definition ping_times (chunks : list Chunk) : list datetime :=
  omap (fun c => match c with
                 | PingEvent _ _ p => Some (check_timestamp p)
                 | _ => None
                 end) chunks.

(** The channel a config type is served by. *)
Definition channel_of_type (kind : string) (ch : Channel) : Prop :=
  match ch with
  | Email => kind = "email"
  | Sms => kind = "sms"
  | Webhook => kind = "webhook"
  end.

(** [n] calls of [consume_email] in a row. *)
Definition consume_emails (n : nat) (a : UserAccount) : UserAccount :=
  Nat.iter n (fun acc => fst (consume_email acc)) a.

(** [n] calls of [consume_sms] in a row. *)
Definition consume_smses (n : nat) (a : UserAccount) : UserAccount :=
  Nat.iter n (fun acc => fst (consume_sms acc)) a.

(** The monitoring side of the store, which the dispatcher never writes. *)
Definition same_monitoring_state (w w' : World) : Prop :=
  servers w' = servers w /\
  memberships w' = memberships w /\
  statuses w' = statuses w /\
  pings w' = pings w /\
  broadcasts w' = broadcasts w /\
  scheduled w' = scheduled w.

(** The [now] a cycle stamps its pings with: the argument, or the
    reading of the wall clock the cycle starts with. *)
Definition cycle_now (timezone_now : nat -> datetime) (now_arg : option datetime)
    (w : World) : datetime :=
  match now_arg with
  | Some t => t
  | None => timezone_now (clock_reads w)
  end.

(** What a send that succeeds does to the configs and to the clock:
    after [extra] readings it reads the clock for the assignment of
    [updated_at] and once more inside the save, and the rows of the
    config get that last reading. *)
Definition stamped_after (timezone_now : nat -> datetime) (extra : nat)
    (config : NotificationConfig) (w w' : World) : Prop :=
  configs w' =
    stamp_config config (timezone_now (clock_reads w + extra + 1)%nat) (configs w) /\
  clock_reads w' = (clock_reads w + extra + 2)%nat.

(** No account of the store has a negative counter. *)
Definition credits_nonneg (w : World) : Prop :=
  Forall (fun a => 0 <= sms_credits a /\ 0 <= email_credits a) (accounts w).

(** * Properties *)

(** ** Preliminaries *)

Ltac split_cases :=
  repeat match goal with
         | |- context [match ?x with _ => _ end] => destruct x eqn:?; simpl
         | |- context [if ?b then _ else _] => destruct b eqn:?; simpl
         end.

Lemma fold_left_invariant {A B : Type} (P : A -> Prop) (f : A -> B -> A)
    (l : list B) (a : A) :
  (forall x y, P x -> P (f x y)) -> P a -> P (fold_left f l a).
Proof.
  intros Hstep. revert a.
  induction l as [|y l IH]; intros a Ha; simpl; [exact Ha|].
  apply IH, Hstep, Ha.
Qed.

Section Core.

(** The oracles of the dispatcher and of the check cycle. *)
Variable timezone_now : nat -> datetime.
Variables email_enabled sms_enabled twilio_installed : bool.
Variables twilio_account_sid twilio_auth_token twilio_phone_number : option string.
Variable transport : nat -> Delivery -> bool.
Variable service : Server -> CheckData.
Variables running_loop channel_layer : bool.
Variable name_le : string -> string -> bool.

Abbreviation notify_one :=
  (notify_config timezone_now email_enabled sms_enabled twilio_installed
     twilio_account_sid twilio_auth_token twilio_phone_number transport).
Abbreviation notify :=
  (notify_status_change timezone_now email_enabled sms_enabled twilio_installed
     twilio_account_sid twilio_auth_token twilio_phone_number transport).
Abbreviation send_email := (_send_email timezone_now email_enabled transport).
Abbreviation send_sms :=
  (_send_sms timezone_now sms_enabled twilio_installed twilio_account_sid
     twilio_auth_token twilio_phone_number transport).
Abbreviation check_one :=
  (check_server timezone_now email_enabled sms_enabled twilio_installed
     twilio_account_sid twilio_auth_token twilio_phone_number transport service
     running_loop channel_layer).
Abbreviation check_all :=
  (check_servers timezone_now email_enabled sms_enabled twilio_installed
     twilio_account_sid twilio_auth_token twilio_phone_number transport service
     running_loop channel_layer).
Abbreviation run_cycle :=
  (run_all_checks timezone_now email_enabled sms_enabled twilio_installed
     twilio_account_sid twilio_auth_token twilio_phone_number transport service
     running_loop channel_layer name_le).
Abbreviation checked := (servers_checked name_le).

(** ** What the dispatcher leaves alone *)

Lemma notify_config_statuses server st prev rec w c :
  statuses (notify_one server st prev rec w c) = statuses w.
Proof.
  unfold notify_config, _can_send_notification.
  destruct (updated_at c); cbn;
    unfold _send_email, _send_sms, _send_webhook, hand_off, stamp, now; cbn;
    split_cases; reflexivity.
Qed.

Lemma notify_status_change_statuses server st prev w :
  statuses (notify server st prev w) = statuses w.
Proof.
  unfold notify_status_change.
  destruct (_ && _); [reflexivity|].
  destruct (_ && _); [reflexivity|].
  apply (fold_left_invariant (fun x => statuses x = statuses w)); [|reflexivity].
  intros x c Hx. rewrite notify_config_statuses. exact Hx.
Qed.


(** ** Status aggregation *)

Lemma reduce_status_success s d t :
  cd_status d = "success" ->
  reduce_status s d t =
    {| status := "up";
       uptime_percentage := uptime_percentage s;
       last_check := Some t;
       last_up := Some t;
       last_down := last_down s;
       consecutive_failures := 0;
       failure_threshold := failure_threshold s;
       message := Some "OK";
       status_updated_at := status_updated_at s |}.
Proof.
  intros Hd. unfold reduce_status. rewrite Hd. reflexivity.
Qed.

Lemma reduce_status_non_success s d t :
  cd_status d <> "success" ->
  reduce_status s d t =
    {| status := if failure_threshold s <=? consecutive_failures s + 1
                 then "down" else "degraded";
       uptime_percentage := uptime_percentage s;
       last_check := Some t;
       last_up := last_up s;
       last_down := Some t;
       consecutive_failures := consecutive_failures s + 1;
       failure_threshold := failure_threshold s;
       message := Some (Py.or_str (cd_error_message d) (cd_status d));
       status_updated_at := status_updated_at s |}.
Proof.
  intros Hd. unfold reduce_status.
  destruct (String.eqb_spec (cd_status d) "success") as [E|_]; [contradiction|].
  reflexivity.
Qed.

Lemma or_str_message (e : option string) (v : string) :
  (forall m, e = Some m -> m <> "" -> Py.or_str e v = m) /\
  (e = None \/ e = Some "" -> Py.or_str e v = v).
Proof.
  unfold Py.or_str, Py.truthy. split.
  - intros m -> Hm. destruct (String.eqb_spec m ""); [contradiction|reflexivity].
  - intros [->| ->]; reflexivity.
Qed.

Lemma reduce_status_reduced s d t : reduced_status (status (reduce_status s d t)).
Proof.
  unfold reduced_status, reduce_status.
  destruct (String.eqb _ _); simpl; [auto|].
  destruct (_ <=? _); auto.
Qed.

Lemma reduce_status_not_unknown s d t : status (reduce_status s d t) <> "unknown".
Proof.
  destruct (reduce_status_reduced s d t) as [E|[E|E]]; rewrite E; discriminate.
Qed.

Lemma reduce_status_failures_nonneg s d t :
  0 <= consecutive_failures s -> 0 <= consecutive_failures (reduce_status s d t).
Proof.
  intros H. unfold reduce_status. destruct (String.eqb _ _); simpl; lia.
Qed.

(** *** One iteration of the cycle *)

(** The fan-out writes its two logs and nothing else. *)
Lemma notify_subscribers_statuses ping st w :
  statuses (notify_subscribers running_loop channel_layer ping st w) = statuses w.
Proof.
  unfold notify_subscribers, _group_send.
  destruct running_loop, channel_layer; reflexivity.
Qed.

(** The row a server's iteration persists: the reduction of the row it
    started from, with a fresh [updated_at]. *)
Lemma check_server_persists t send w server :
  exists saved,
    statuses (fst (check_one t send w server)) !! server_id server =
      Some (let r := reduce_status (prior_status timezone_now (server_id server) w)
                       (service server) t in
            {| status := status r;
               uptime_percentage := uptime_percentage r;
               last_check := last_check r;
               last_up := last_up r;
               last_down := last_down r;
               consecutive_failures := consecutive_failures r;
               failure_threshold := failure_threshold r;
               message := message r;
               status_updated_at := saved |}).
Proof.
  unfold check_server, create_ping, get_or_create, save_status, prior_status,
    insert_timestamps, now.
  cbn. destruct (statuses w !! server_id server) as [row|] eqn:Hrow; cbn;
    eexists;
    (match goal with |- context [if ?b then _ else _] => destruct b end);
    rewrite ?notify_status_change_statuses, notify_subscribers_statuses; cbn;
    rewrite ?Nat.add_succ_r, ?Nat.add_0_r; apply lookup_insert_eq.
Qed.

(** An iteration leaves the rows of the other servers alone. *)
Lemma check_server_other t send w server sid :
  sid <> server_id server ->
  statuses (fst (check_one t send w server)) !! sid = statuses w !! sid.
Proof.
  intros Hne.
  unfold check_server, create_ping, get_or_create, save_status,
    insert_timestamps, now.
  cbn. destruct (statuses w !! server_id server) as [row|] eqn:Hrow; cbn;
    (match goal with |- context [if ?b then _ else _] => destruct b end);
    rewrite ?notify_status_change_statuses, notify_subscribers_statuses; cbn;
    rewrite ?lookup_insert_ne by congruence; reflexivity.
Qed.


(** C1. For every server processed in a check cycle, the row persisted
    for it satisfies the postconditions of the status reduction:
    [last_check] is the cycle's [now] and [failure_threshold] is the one
    of the row the iteration started from; on a [success] outcome the
    failure count is 0, the status is [up], [last_up] is [now] and the
    message is ["OK"]; on any other outcome the failure count is one
    more than before, [last_down] is [now], the message is the outcome's
    error message when it is non-empty and the outcome's status string
    otherwise, and the status is [down] when the new count reaches the
    threshold and [degraded] when it does not. *)
Theorem C1_reduction_postconditions
    (t : datetime) (send_notifications : bool) (w : World) (server : Server) :
  let data := service server in
  let prior := prior_status timezone_now (server_id server) w in
  exists row : ServerStatus,
    statuses (fst (check_one t send_notifications w server)) !! server_id server
      = Some row /\
    last_check row = Some t /\
    failure_threshold row = failure_threshold prior /\
    (cd_status data = "success" ->
       consecutive_failures row = 0 /\
       status row = "up" /\
       last_up row = Some t /\
       message row = Some "OK") /\
    (cd_status data <> "success" ->
       consecutive_failures row = consecutive_failures prior + 1 /\
       last_down row = Some t /\
       (forall m, cd_error_message data = Some m -> m <> "" ->
                  message row = Some m) /\
       (cd_error_message data = None \/ cd_error_message data = Some "" ->
          message row = Some (cd_status data)) /\
       (failure_threshold prior <= consecutive_failures row ->
          status row = "down") /\
       (consecutive_failures row < failure_threshold prior ->
          status row = "degraded")).
Proof.
  intros data prior.
  destruct (check_server_persists t send_notifications w server) as [saved Hrow].
  eexists. split; [exact Hrow|]. fold prior data. cbn.
  split; [|split; [|split]].
  - unfold reduce_status. destruct (String.eqb _ _); reflexivity.
  - unfold reduce_status. destruct (String.eqb _ _); reflexivity.
  - intros Hs. rewrite (reduce_status_success _ _ _ Hs). cbn. auto.
  - intros Hs. rewrite (reduce_status_non_success _ _ _ Hs). cbn.
    destruct (or_str_message (cd_error_message data) (cd_status data))
      as [Hmsg Hdefault].
    repeat split.
    + intros m Hm Hne. f_equal. exact (Hmsg m Hm Hne).
    + intros Hnone. f_equal. exact (Hdefault Hnone).
    + intros Hreach. destruct (Z.leb_spec (failure_threshold prior)
                                 (consecutive_failures prior + 1)); [reflexivity|lia].
    + intros Hbelow. destruct (Z.leb_spec (failure_threshold prior)
                                 (consecutive_failures prior + 1)); [lia|reflexivity].
Qed.

(** C2, as amended.  After the status reduction is applied to a row whose
    failure count is not negative, whatever the probe outcome, the
    resulting row satisfies the invariant: [down] implies that the count
    has reached the threshold, [degraded] implies that the count is
    positive and below the threshold, [up] implies that the count is 0. *)
Theorem C2_invariant_after_reduction (s : ServerStatus) (d : CheckData) (t : datetime) :
  0 <= consecutive_failures s ->
  status_invariant (reduce_status s d t).
Proof.
  intros Hcf. unfold status_invariant, reduce_status.
  destruct (String.eqb _ _); cbn.
  - repeat split; try discriminate; reflexivity.
  - destruct (Z.leb_spec (failure_threshold s) (consecutive_failures s + 1));
      repeat split; intros; try discriminate; lia.
Qed.

Lemma C2_invariant_after_reduction_witness :
  status_invariant (reduce_status (default_status 0) check_failure 1).
Proof.
  apply C2_invariant_after_reduction. simpl. lia.
Defined.

(** C2, as stated, fails on a row whose failure count is negative: the
    failure brings the count to 0, below the threshold, and the status
    is [degraded] with a count that is not positive. *)
Lemma C2_counterexample :
  ~ status_invariant (reduce_status (status_row "up" 3 (-1)) check_failure 1).
Proof.
  intros [_ [Hdeg _]].
  assert (H : 0 < consecutive_failures (reduce_status (status_row "up" 3 (-1)) check_failure 1)
              < failure_threshold (reduce_status (status_row "up" 3 (-1)) check_failure 1))
    by (apply Hdeg; reflexivity).
  cbn in H. lia.
Qed.

(** *** Hysteresis *)

Lemma reduce_all_snoc s steps step :
  reduce_all s (steps ++ [step]) =
  reduce_status (reduce_all s steps) (fst step) (snd step).
Proof.
  unfold reduce_all. rewrite fold_left_app. reflexivity.
Qed.

(** A streak of failures: the count grows by the length of the streak and
    the status follows the comparison with the threshold. *)
Lemma reduce_all_streak s steps :
  Forall non_success steps ->
  steps <> [] ->
  consecutive_failures (reduce_all s steps) =
    consecutive_failures s + Z.of_nat (length steps) /\
  failure_threshold (reduce_all s steps) = failure_threshold s /\
  status (reduce_all s steps) =
    if failure_threshold s <=? consecutive_failures s + Z.of_nat (length steps)
    then "down" else "degraded".
Proof.
  induction steps as [|step steps IH] using rev_ind; intros Hall Hne.
  - contradiction.
  - apply Forall_app in Hall as [Hall Hstep].
    apply Forall_inv in Hstep.
    rewrite reduce_all_snoc, (reduce_status_non_success _ _ _ Hstep). cbn.
    rewrite length_app. cbn.
    destruct steps as [|step0 steps0].
    + cbn. repeat split; reflexivity.
    + destruct (IH Hall ltac:(discriminate)) as (Hcf & Hth & _).
      rewrite Hcf, Hth.
      replace (consecutive_failures s + Z.of_nat (length (step0 :: steps0)) + 1)
        with (consecutive_failures s + Z.of_nat (length (step0 :: steps0) + 1))
        by lia.
      repeat split; reflexivity.
Qed.

Lemma status_trace_head s steps : status_trace s steps !! 0%nat = Some (status s).
Proof. destruct steps; reflexivity. Qed.

(** With a threshold of at least 2, a row that is [up] only with a zero
    count never steps from [up] to [down]. *)
Lemma trace_no_up_to_down steps : forall s,
  2 <= failure_threshold s ->
  (status s = "up" -> consecutive_failures s = 0) ->
  no_up_to_down (status_trace s steps).
Proof.
  induction steps as [|step steps IH]; intros s Hth Hup i Hi.
  - destruct i; cbn in *; discriminate.
  - destruct i as [|i]; cbn in Hi |- *.
    + injection Hi as Hs. rewrite status_trace_head.
      unfold reduce_status. destruct (String.eqb _ _); cbn; [discriminate|].
      rewrite (Hup Hs).
      destruct (Z.leb_spec (failure_threshold s) (0 + 1)); [lia|discriminate].
    + apply IH; [| |exact Hi].
      * unfold reduce_status. destruct (String.eqb _ _); exact Hth.
      * unfold reduce_status. destruct (String.eqb _ _); cbn; [reflexivity|].
        destruct (_ <=? _); discriminate.
Qed.

(** C3, as amended.  For a failure threshold [T] and a row that starts
    [up] with a zero failure count: after [T] consecutive non-success
    outcomes, [T] being at least 1, the status is [down]; after [k]
    non-success outcomes with [1 <= k <= T - 1] it is [degraded]; and
    when [T] is at least 2 no step of any run of outcomes, recoveries
    and new failures included, goes from [up] straight to [down]. *)
Theorem C3_hysteresis (T : Z) (s : ServerStatus) (steps : list (CheckData * datetime)) :
  failure_threshold s = T ->
  status s = "up" ->
  consecutive_failures s = 0 ->
  (Forall non_success steps -> 1 <= T -> Z.of_nat (length steps) = T ->
     status (reduce_all s steps) = "down") /\
  (Forall non_success steps -> 1 <= Z.of_nat (length steps) <= T - 1 ->
     status (reduce_all s steps) = "degraded") /\
  (2 <= T -> no_up_to_down (status_trace s steps)).
Proof.
  intros HT Hup Hcf. split; [|split].
  - intros Hall H1 Hlen.
    assert (Hne : steps <> []) by (intros ->; cbn in Hlen; lia).
    destruct (reduce_all_streak s steps Hall Hne) as (_ & _ & Hst).
    rewrite Hst, HT, Hcf.
    destruct (Z.leb_spec T (0 + Z.of_nat (length steps))); [reflexivity|lia].
  - intros Hall Hlen.
    assert (Hne : steps <> []) by (intros ->; cbn in Hlen; lia).
    destruct (reduce_all_streak s steps Hall Hne) as (_ & _ & Hst).
    rewrite Hst, HT, Hcf.
    destruct (Z.leb_spec T (0 + Z.of_nat (length steps))); [lia|reflexivity].
  - intros H2. apply trace_no_up_to_down; [lia|auto].
Qed.

Lemma C3_hysteresis_witness :
  status (reduce_all (status_row "up" 3 0)
            [(check_failure, 1); (check_failure, 2); (check_failure, 3)]) = "down" /\
  status (reduce_all (status_row "up" 3 0) [(check_failure, 1); (check_failure, 2)]) = "degraded" /\
  no_up_to_down (status_trace (status_row "up" 3 0)
                   [(check_failure, 1); (check_success, 2); (check_failure, 3);
                    (check_failure, 4); (check_failure, 5); (check_success, 6)]).
Proof.
  assert (Hall : forall l, Forall non_success (map (fun t => (check_failure, t)) l)).
  { induction l; constructor; [discriminate|assumption]. }
  split; [|split].
  - apply (C3_hysteresis 3 (status_row "up" 3 0) _ eq_refl eq_refl eq_refl);
      [exact (Hall [1; 2; 3])|lia|reflexivity].
  - apply (C3_hysteresis 3 (status_row "up" 3 0) _ eq_refl eq_refl eq_refl);
      [exact (Hall [1; 2])|cbn; lia].
  - apply (C3_hysteresis 3 (status_row "up" 3 0) _ eq_refl eq_refl eq_refl).
    lia.
Defined.

(** C3, as stated, fails for the threshold 1: the first failure takes an
    [up] row straight to [down]. *)
Lemma C3_counterexample : ~ hysteresis 1.
Proof.
  intros H.
  destruct (H (status_row "up" 1 0) [(check_failure, 1)] eq_refl eq_refl eq_refl)
    as (_ & _ & Hskip).
  apply (Hskip 0%nat); reflexivity.
Qed.

(** *** The status persisted by a cycle *)

Lemma check_server_reduces t send w server :
  has_reduced_row (server_id server) (fst (check_one t send w server)).
Proof.
  destruct (check_server_persists t send w server) as [saved Hrow].
  eexists. split; [exact Hrow|]. cbn. apply reduce_status_reduced.
Qed.

Lemma check_server_keeps t send w server sid :
  has_reduced_row sid w -> has_reduced_row sid (fst (check_one t send w server)).
Proof.
  intros Hrow. destruct (decide (sid = server_id server)) as [->|Hne].
  - apply check_server_reduces.
  - destruct Hrow as (row & Hrow & Hred). exists row. split; [|exact Hred].
    rewrite check_server_other by exact Hne. exact Hrow.
Qed.

Lemma check_servers_cons t send server rest w :
  fst (check_all t send (server :: rest) w) =
  fst (check_all t send rest (fst (check_one t send w server))).
Proof.
  cbn [check_servers].
  destruct (check_one t send w server) as [w1 r]. cbn [fst].
  destruct (check_all t send rest w1) as [w2 rs]. reflexivity.
Qed.

Lemma check_servers_keeps t send queryset : forall w sid,
  has_reduced_row sid w -> has_reduced_row sid (fst (check_all t send queryset w)).
Proof.
  induction queryset as [|server rest IH]; intros w sid Hrow; [exact Hrow|].
  rewrite check_servers_cons. apply IH, check_server_keeps, Hrow.
Qed.

Lemma check_servers_reduces t send queryset : forall w server,
  In server queryset ->
  has_reduced_row (server_id server) (fst (check_all t send queryset w)).
Proof.
  induction queryset as [|head rest IH]; intros w server Hin; [destruct Hin|].
  rewrite check_servers_cons. destruct Hin as [->|Hin].
  - apply check_servers_keeps, check_server_reduces.
  - apply IH, Hin.
Qed.

Lemma run_all_checks_reduces now_arg queryset send w server :
  In server (checked queryset w) ->
  has_reduced_row (server_id server) (fst (run_cycle now_arg queryset send w)).
Proof.
  intros Hin. unfold run_all_checks.
  destruct now_arg as [t|]; cbn; apply check_servers_reduces;
    destruct queryset; exact Hin.
Qed.


(** C10. For every server processed by a check cycle, the status
    persisted after the cycle is one of [up], [down] and [degraded]: a
    status reduction never yields [unknown], which is the value of the
    defaults a lazily created row starts with. *)
Theorem C10_cycle_status_is_reduced
    (now_arg : option datetime) (queryset : option (list Server))
    (send_notifications : bool) (w : World) (server : Server) :
  In server (checked queryset w) ->
  (exists row : ServerStatus,
     statuses (fst (run_cycle now_arg queryset send_notifications w))
       !! server_id server = Some row /\
     reduced_status (status row) /\
     status row <> "unknown") /\
  (forall s d t, status (reduce_status s d t) <> "unknown") /\
  (forall sid w0, statuses w0 !! sid = None ->
     status (fst (fst (get_or_create timezone_now sid w0))) = "unknown").
Proof.
  intros Hin. split; [|split].
  - destruct (run_all_checks_reduces now_arg queryset send_notifications w server Hin)
      as (row & Hrow & Hred).
    exists row. split; [exact Hrow|]. split; [exact Hred|].
    destruct Hred as [E|[E|E]]; rewrite E; discriminate.
  - apply reduce_status_not_unknown.
  - intros sid w0 Hnone. unfold get_or_create. rewrite Hnone. reflexivity.
Qed.

(** ** Notification dispatch *)

(** The log only grows, and what one config adds carries the flag the
    loop was entered with. *)
Lemma notify_config_outbox server st prev rec w c :
  exists new,
    outbox (notify_one server st prev rec w c) = (outbox w ++ new)%list /\
    Forall (fun e => d_is_recovery (fst e) = rec) new.
Proof.
  unfold notify_config, _can_send_notification.
  destruct (updated_at c); cbn;
    unfold _send_email, _send_sms, _send_webhook, hand_off, stamp, now; cbn;
    split_cases;
    first [ exists []; split; [symmetry; apply app_nil_r | constructor]
          | eexists [_]; split; [reflexivity | repeat constructor] ].
Qed.

Lemma notify_status_change_outbox server st prev w :
  exists new,
    outbox (notify server st prev w) = (outbox w ++ new)%list /\
    Forall (fun e => d_is_recovery (fst e) = is_recovery st prev) new.
Proof.
  assert (Hnil : exists new, outbox w = (outbox w ++ new)%list /\
            Forall (fun e => d_is_recovery (fst e) = is_recovery st prev) new).
  { exists []. split; [symmetry; apply app_nil_r | constructor]. }
  unfold notify_status_change.
  destruct (_ && _); [exact Hnil|].
  destruct (_ && _); [exact Hnil|].
  apply (fold_left_invariant
           (fun x => exists new, outbox x = (outbox w ++ new)%list /\
              Forall (fun e => d_is_recovery (fst e) = is_recovery st prev) new));
    [|exact Hnil].
  intros x c (new & Hx & Hnew).
  destruct (notify_config_outbox server st prev (is_recovery st prev) x c)
    as (more & Hmore & Hflag).
  exists (new ++ more)%list. split.
  - rewrite Hmore, Hx, app_assoc. reflexivity.
  - apply Forall_app. split; assumption.
Qed.

(** A config under cooldown is passed over: nothing is handed to a
    transport and no table is written. *)
Lemma notify_config_rate_limited server st prev rec w c :
  fst (_can_send_notification timezone_now c w) = false ->
  outbox (notify_one server st prev rec w c) = outbox w /\
  accounts (notify_one server st prev rec w c) = accounts w /\
  configs (notify_one server st prev rec w c) = configs w.
Proof.
  unfold notify_config.
  destruct (_can_send_notification timezone_now c w) as [can w1] eqn:Hcan.
  cbn. intros ->. cbn.
  unfold _can_send_notification in Hcan.
  destruct (updated_at c); inversion Hcan; subst; cbn; auto.
Qed.


Lemma is_failure_spec st : is_failure st = true <-> failure_alert (status st).
Proof.
  unfold is_failure, failure_alert, Py.str_in. cbn.
  destruct (String.eqb_spec (status st) "down") as [->|Hd]; cbn; [tauto|].
  destruct (String.eqb_spec (status st) "degraded") as [->|Hg]; cbn; [tauto|].
  split; [discriminate|tauto].
Qed.

Lemma is_recovery_spec st prev : is_recovery st prev = true <-> recovery prev (status st).
Proof.
  unfold is_recovery, recovery, Py.opt_in, Py.str_in.
  destruct prev as [p|]; cbn.
  - destruct (String.eqb_spec p "down") as [->|Hd]; cbn;
      [|destruct (String.eqb_spec p "degraded") as [->|Hg]; cbn];
      destruct (String.eqb_spec (status st) "up") as [->|Hu];
      split; try discriminate; try tauto; intros [[H|H] Hup];
      try contradiction; congruence.
  - split; [discriminate|]. intros [[H|H] _]; discriminate.
Qed.

(** Saving a row under its own key: a search that found the old row now
    finds the new one, as long as the search key was not rewritten. *)
Lemma find_save_account (P : UserAccount -> bool) (a a' : UserAccount) tbl :
  List.find P tbl = Some a ->
  account_id a' = account_id a ->
  P a' = true ->
  List.find P (save_account a' tbl) = Some a'.
Proof.
  intros Hfind Hid HP. induction tbl as [|r tbl IH]; [discriminate|].
  cbn in Hfind |- *. destruct (P r) eqn:HPr.
  - injection Hfind as ->. rewrite Hid, Z.eqb_refl, HP. reflexivity.
  - destruct (account_id r =? account_id a').
    + rewrite HP. reflexivity.
    + rewrite HPr. apply IH, Hfind.
Qed.

Lemma find_save_account_none (P : UserAccount -> bool) (a' : UserAccount) tbl :
  List.find P tbl = None ->
  P a' = false ->
  List.find P (save_account a' tbl) = None.
Proof.
  intros Hfind HP. induction tbl as [|r tbl IH]; [reflexivity|].
  cbn in Hfind |- *. destruct (P r) eqn:HPr; [discriminate|].
  destruct (account_id r =? account_id a'); [rewrite HP|rewrite HPr]; apply IH, Hfind.
Qed.

Lemma find_none_elem (P : UserAccount -> bool) (a : UserAccount) tbl :
  List.find P tbl = None -> In a tbl -> P a = false.
Proof.
  intros Hnone Hin. destruct (P a) eqn:HP; [|reflexivity].
  pose proof (find_none P tbl Hnone a Hin). congruence.
Qed.

(** After a credit of the resolved account is consumed and the row
    saved, the server resolves to the updated row. *)
Lemma get_account_after_save server w a a' :
  _get_account server w = Some a ->
  account_id a' = account_id a ->
  account_user a' = account_user a ->
  account_organization a' = account_organization a ->
  _get_account server (set_accounts (save_account a') w) = Some a'.
Proof.
  unfold _get_account, org_billing_account, user_billing_account. cbn.
  intros Hget Hid Hu Ho.
  assert (Hsave : forall P, List.find P (accounts w) = Some a -> P a' = P a ->
            List.find P (save_account a' (accounts w)) = Some a').
  { intros P Hf HP. apply (find_save_account P a a'); [exact Hf|exact Hid|].
    rewrite HP. apply (find_some P _ Hf). }
  destruct (organization server) as [o|].
  - destruct (List.find _ (accounts w)) as [b|] eqn:Horg.
    + injection Hget as ->. rewrite (Hsave _ Horg); [reflexivity|].
      rewrite Ho. reflexivity.
    + destruct (owner server) as [u|]; [|discriminate].
      assert (Hin : In a (accounts w)) by (apply (find_some _ _ Hget)).
      rewrite (find_save_account_none _ a' _ Horg).
      * apply Hsave; [exact Hget|]. rewrite Hu. reflexivity.
      * rewrite Ho. exact (find_none_elem _ a _ Horg Hin).
  - destruct (owner server) as [u|]; [|discriminate].
    apply Hsave; [exact Hget|]. rewrite Hu. reflexivity.
Qed.

(** C5, as amended.  A call of the dispatch operation attempts a
    notification only when the transition is a failure alert (the new
    status is [down] or [degraded]) or a recovery (the old status is
    [down] or [degraded] and the new one is [up]); anything else is a
    no-op, [up] to [up] in particular.  A transition from [degraded] to
    [down] is a failure alert: the failure-enabled configs of the server
    are gone through with the alert flag, and nothing that is handed to
    a transport for it is a recovery notification. *)
Theorem C5_dispatch_classification
    (server : Server) (st : ServerStatus) (previous_status : option string)
    (w : World) :
  (~ failure_alert (status st) -> ~ recovery previous_status (status st) ->
     notify server st previous_status w = w) /\
  (previous_status = Some "up" -> status st = "up" ->
     notify server st previous_status w = w) /\
  (previous_status = Some "degraded" -> status st = "down" ->
     notify server st previous_status w =
       fold_left (notify_one server st previous_status false)
         (merge_sort by_notification_type
            (List.filter notify_on_failure
               (List.filter (fun c => (config_server c =? server_id server) && enabled c)
                  (configs w)))) w /\
     exists new,
       outbox (notify server st previous_status w) = (outbox w ++ new)%list /\
       Forall (fun e => d_is_recovery (fst e) = false) new).
Proof.
  split; [|split].
  - intros Hf Hr. unfold notify_status_change.
    destruct (_ && _); [reflexivity|].
    destruct (is_failure st) eqn:Ef; [apply is_failure_spec in Ef; contradiction|].
    destruct (is_recovery st previous_status) eqn:Er;
      [apply is_recovery_spec in Er; contradiction|].
    reflexivity.
  - intros -> Hup. unfold notify_status_change. rewrite Hup. reflexivity.
  - intros -> Hdown.
    assert (Ef : is_failure st = true) by (apply is_failure_spec; left; exact Hdown).
    assert (Er : is_recovery st (Some "degraded") = false).
    { unfold is_recovery. rewrite Hdown. reflexivity. }
    split.
    + unfold notify_status_change, selected_configs.
      rewrite Ef, Er, Hdown. reflexivity.
    + destruct (notify_status_change_outbox server st (Some "degraded") w)
        as (new & Hout & Hflag).
      exists new. split; [exact Hout|].
      eapply Forall_impl; [exact Hflag|].
      intros e He. cbn beta in He. rewrite He. exact Er.
Qed.

(** C6, as amended.  For every selected config the cooldown rule holds
    on the config's [updated_at], which the dispatcher takes for the
    last-sent timestamp and which every save of the record refreshes,
    its creation included: the config is found rate limited exactly when
    [updated_at] is set and the time elapsed since then is strictly less
    than its minimum interval; a config whose [updated_at] is unset is
    never held back by the check; and a rate-limited config is skipped,
    nothing being sent or written.  The creation of a config stores the
    reading of the clock that [auto_now] takes during the insert,
    whatever was there before, and a later save of the row stores the
    reading taken during that save; a row stamped in this way is held
    back for as long as less than its minimum interval has elapsed since
    the stamp, although nothing was ever sent for it. *)
Theorem C6_cooldown
    (server : Server) (st : ServerStatus) (previous_status : option string)
    (recovering : bool) (config : NotificationConfig) (w : World) :
  let t := timezone_now (clock_reads w) in
  (fst (_can_send_notification timezone_now config w) = false <->
     exists last,
       updated_at config = Some last /\
       t - last < timedelta_seconds (min_notification_interval config)) /\
  (updated_at config = None ->
     fst (_can_send_notification timezone_now config w) = true) /\
  (fst (_can_send_notification timezone_now config w) = false ->
     outbox (notify_one server st previous_status recovering w config) = outbox w /\
     accounts (notify_one server st previous_status recovering w config) = accounts w /\
     configs (notify_one server st previous_status recovering w config) = configs w) /\
  configs (create_config timezone_now config w) =
    (configs w ++ [touch config (timezone_now (S (clock_reads w)))])%list /\
  configs (save_config timezone_now config w) =
    map (fun r => if config_id r =? config_id config then touch config t else r)
        (configs w) /\
  (forall (saved : datetime) (w2 : World),
     timezone_now (clock_reads w2) - saved
       < timedelta_seconds (min_notification_interval config) ->
     fst (_can_send_notification timezone_now (touch config saved) w2) = false /\
     outbox (notify_one server st previous_status recovering w2 (touch config saved))
       = outbox w2).
Proof.
  intros t.
  assert (Hlimited : forall c x,
            fst (_can_send_notification timezone_now c x) = false <->
            exists last,
              updated_at c = Some last /\
              timezone_now (clock_reads x) - last
                < timedelta_seconds (min_notification_interval c)).
  { intros c x. unfold _can_send_notification, now.
    destruct (updated_at c) as [last|]; cbn.
    - split.
      + intros H. exists last. split; [reflexivity|].
        apply Z.leb_gt in H. exact H.
      + intros (l & Hl & Hlt). injection Hl as <-. apply Z.leb_gt. exact Hlt.
    - split; [discriminate|]. intros (l & Hl & _). discriminate. }
  split; [|split; [|split; [|split; [|split]]]].
  - apply Hlimited.
  - intros Hnone. unfold _can_send_notification. rewrite Hnone. reflexivity.
  - apply notify_config_rate_limited.
  - reflexivity.
  - reflexivity.
  - intros saved w2 Hlt.
    assert (Hheld : fst (_can_send_notification timezone_now (touch config saved) w2)
                    = false).
    { apply Hlimited. exists saved. split; [reflexivity|exact Hlt]. }
    split; [exact Hheld|].
    apply (notify_config_rate_limited server st previous_status recovering w2
             (touch config saved) Hheld).
Qed.


Lemma get_account_ext server w1 w2 :
  accounts w1 = accounts w2 -> _get_account server w1 = _get_account server w2.
Proof.
  intros H. unfold _get_account. rewrite H. reflexivity.
Qed.

Lemma app_one_neq {A : Type} (l : list A) (x : A) : l <> (l ++ [x])%list.
Proof.
  intros H. apply (f_equal (@length A)) in H. rewrite length_app in H.
  cbn in H. lia.
Qed.

(** C7. When the credit account a server resolves to has an email
    (respectively SMS) counter that is not positive, an email
    (respectively SMS) send is skipped entirely: nothing is handed to the
    transport and no table changes, so the counter stays as it is.  When
    a send on one of these two channels succeeds, the server resolves
    afterwards to the same account with exactly 1 taken from the
    counter of that channel and the other counter untouched. *)
Theorem C7_credit_accounting
    (server : Server) (st : ServerStatus) (config : NotificationConfig)
    (recovering : bool) (w : World) (a : UserAccount) :
  _get_account server w = Some a ->
  (email_credits a <= 0 -> send_email server st config recovering w = w) /\
  (sms_credits a <= 0 -> send_sms server st config recovering w = w) /\
  (forall d,
     outbox (send_email server st config recovering w) = (outbox w ++ [(d, true)])%list ->
     exists a',
       _get_account server (send_email server st config recovering w) = Some a' /\
       account_id a' = account_id a /\
       email_credits a' = email_credits a - 1 /\
       sms_credits a' = sms_credits a) /\
  (forall d,
     outbox (send_sms server st config recovering w) = (outbox w ++ [(d, true)])%list ->
     exists a',
       _get_account server (send_sms server st config recovering w) = Some a' /\
       account_id a' = account_id a /\
       sms_credits a' = sms_credits a - 1 /\
       email_credits a' = email_credits a).
Proof.
  intros Hget. split; [|split; [|split]].
  - intros Hzero. unfold _send_email. rewrite Hget.
    destruct email_enabled; cbn; [|reflexivity].
    destruct (Z.leb_spec (email_credits a) 0); [reflexivity|lia].
  - intros Hzero. unfold _send_sms. rewrite Hget.
    destruct sms_enabled; cbn; [|reflexivity].
    destruct (Z.leb_spec (sms_credits a) 0); [reflexivity|lia].
  - intros d. unfold _send_email. rewrite Hget.
    destruct email_enabled; cbn; [|intros H; destruct (app_one_neq _ _ H)].
    destruct (Z.leb_spec (email_credits a) 0) as [Hle|Hpos];
      [intros H; destruct (app_one_neq _ _ H)|].
    unfold hand_off. cbn.
    destruct (transport _ _) eqn:Hok; cbn.
    + intros _. unfold consume_email.
      destruct (Z.leb_spec (email_credits a) 0) as [Hle|_]; [lia|].
      unfold stamp, now. cbn.
      match goal with |- context [save_account ?r] => exists r end.
      split; [|cbn; auto].
      etransitivity; cycle 1.
      * apply (get_account_after_save server w a);
          [exact Hget|reflexivity|reflexivity|reflexivity].
      * apply get_account_ext. reflexivity.
    + intros H. apply app_inj_tail in H as [_ H]. discriminate.
  - intros d. unfold _send_sms. rewrite Hget.
    destruct sms_enabled; cbn; [|intros H; destruct (app_one_neq _ _ H)].
    destruct (Z.leb_spec (sms_credits a) 0) as [Hle|Hpos];
      [intros H; destruct (app_one_neq _ _ H)|].
    destruct twilio_installed; cbn; [|intros H; destruct (app_one_neq _ _ H)].
    destruct (_ && _); cbn; [|intros H; destruct (app_one_neq _ _ H)].
    unfold hand_off. cbn.
    destruct (transport _ _) eqn:Hok; cbn.
    + intros _. unfold consume_sms.
      destruct (Z.leb_spec (sms_credits a) 0) as [Hle|_]; [lia|].
      unfold stamp, now. cbn.
      match goal with |- context [save_account ?r] => exists r end.
      split; [|cbn; auto].
      etransitivity; cycle 1.
      * apply (get_account_after_save server w a);
          [exact Hget|reflexivity|reflexivity|reflexivity].
      * apply get_account_ext. reflexivity.
    + intros H. apply app_inj_tail in H as [_ H]. discriminate.
Qed.

(** C9. When a server resolves to no credit account, neither through its
    organization nor through its owner, an email or SMS send goes ahead
    without a credit check (on an enabled channel the message is handed
    to the transport) and no credit counter changes: the accounts table
    is left as it was. *)
Theorem C9_no_account_is_unlimited
    (server : Server) (st : ServerStatus) (config : NotificationConfig)
    (recovering : bool) (w : World) :
  (forall o, organization server = Some o ->
             org_billing_account o (accounts w) = None) ->
  (forall u, owner server = Some u ->
             user_billing_account u (accounts w) = None) ->
  _get_account server w = None /\
  (email_enabled = true ->
     exists ok,
       outbox (send_email server st config recovering w) =
         (outbox w ++ [(delivery Email (name server) (status st) (recipient config)
                          recovering None, ok)])%list) /\
  accounts (send_email server st config recovering w) = accounts w /\
  (sms_enabled = true -> twilio_installed = true ->
   Py.truthy_opt twilio_account_sid = true ->
   Py.truthy_opt twilio_auth_token = true ->
   Py.truthy_opt twilio_phone_number = true ->
     exists ok,
       outbox (send_sms server st config recovering w) =
         (outbox w ++ [(delivery Sms (name server) (status st) (recipient config)
                          recovering None, ok)])%list) /\
  accounts (send_sms server st config recovering w) = accounts w.
Proof.
  intros Horg Hown.
  assert (Hget : _get_account server w = None).
  { unfold _get_account.
    destruct (organization server) as [o|]; [rewrite (Horg o eq_refl)|];
      (destruct (owner server) as [u|]; [apply (Hown u eq_refl)|reflexivity]). }
  split; [exact Hget|]. split; [|split; [|split]].
  - intros ->. unfold _send_email. rewrite Hget. cbn. unfold hand_off. cbn.
    destruct (transport _ _); cbn; eexists; reflexivity.
  - unfold _send_email. rewrite Hget. unfold hand_off, stamp, now.
    destruct email_enabled; cbn; [|reflexivity].
    destruct (transport _ _); reflexivity.
  - intros Hs Ht H1 H2 H3. unfold _send_sms.
    rewrite Hget, Hs, Ht, H1, H2, H3. cbn.
    unfold hand_off. cbn. destruct (transport _ _); cbn; eexists; reflexivity.
  - unfold _send_sms. rewrite Hget. unfold hand_off, stamp, now.
    destruct sms_enabled; cbn; [|reflexivity].
    destruct twilio_installed; cbn; [|reflexivity].
    destruct (_ && _); cbn; [|reflexivity].
    destruct (transport _ _); reflexivity.
Qed.


End Core.

(** ** Probe classification *)

(** C4. The probe classifies its outcome as follows.  For [http] and
    [https] the status is [success] exactly when the transport completes
    with a response code below 500, [failure] exactly when it completes
    with a code of 500 or more, [timeout] on the transport's timeout
    error, and [error] on any other transport failure, whose text is
    kept verbatim as the error message.  For a protocol outside [http],
    [https], [tcp] and [icmp] the status is [error], the message names
    the unsupported protocol, and no network call is made. *)
Theorem C4_probe_classification
    (requests_get : string -> Z -> HttpReply)
    (create_connection : string -> Z -> Z -> TcpReply)
    (default_timeout : Z) (server : Server) :
  let reply := requests_get (full_url server)
                 (Py.or_int (timeout server) default_timeout) in
  let result := run_check requests_get create_connection default_timeout server in
  (protocol server = "http" \/ protocol server = "https" ->
     exists data,
       fst result = Some data /\
       (cd_status data = "success" <->
          exists code elapsed, reply = HttpResponse code elapsed /\ code < 500) /\
       (cd_status data = "failure" <->
          exists code elapsed, reply = HttpResponse code elapsed /\ 500 <= code) /\
       (reply = HttpTimeout -> cd_status data = "timeout") /\
       (forall text, reply = HttpError text ->
          cd_status data = "error" /\
          cd_error_message data = Some text)) /\
  (~ In (protocol server) ["http"; "https"; "tcp"; "icmp"] ->
     exists data,
       fst result = Some data /\
       cd_status data = "error" /\
       cd_error_message data =
         Some ("unsupported protocol: " +:+ protocol server) /\
       snd result = []).
Proof.
  intros reply result. split.
  - intros Hproto.
    assert (Hhttp : result =
              (Some (fst (_check_http requests_get default_timeout server)),
               snd (_check_http requests_get default_timeout server))).
    { unfold result, run_check. destruct Hproto as [-> | ->]; reflexivity. }
    rewrite Hhttp. eexists. split; [reflexivity|].
    unfold _check_http. fold reply.
    destruct reply as [code elapsed| |text]; cbn;
      [destruct (Z.ltb_spec code 500)| |];
      (split; [|split; [|split]]).
    all: try (split;
              [ intros Hst;
                first [ discriminate Hst | exists code, elapsed; split; [reflexivity|lia] ]
              | intros (c & e & Heq & Hc);
                first [ discriminate Heq
                      | injection Heq as -> ->; first [reflexivity | lia] ] ]).
    all: try (intros Heq; first [discriminate Heq | reflexivity]).
    all: intros t Heq; first [discriminate Heq | injection Heq as ->; auto].
  - intros Hout. unfold result, run_check, Py.str_in. cbn.
    destruct (String.eqb_spec (protocol server) "http") as [E|_];
      [exfalso; apply Hout; rewrite E; cbn; auto 6|].
    destruct (String.eqb_spec (protocol server) "https") as [E|_];
      [exfalso; apply Hout; rewrite E; cbn; auto 6|].
    destruct (String.eqb_spec (protocol server) "tcp") as [E|_];
      [exfalso; apply Hout; rewrite E; cbn; auto 6|].
    destruct (String.eqb_spec (protocol server) "icmp") as [E|_];
      [exfalso; apply Hout; rewrite E; cbn; auto 6|].
    cbn. eexists. split; [reflexivity|]. cbn. auto.
Qed.

(** ** Resumable stream *)


Section StreamClaims.

Variable int_of_str : string -> option Z.
Variable name_le : string -> string -> bool.




End StreamClaims.



(** ** Instances on the sample data *)

(** End-to-end scenario A: threshold 1, the first probe fails. *)
Example scenario_A :
  let w := mkWorld {[ 1 := sample_server ]} [(7, 5)] {[ 1 := status_row "up" 1 0 ]}
             [] [] [] [] [] [] 0 in
  let w' := fst (run_all_checks sample_clock true true true (Some "AC00")
                   (Some "token") (Some "+15550000000") (fun _ _ => true)
                   (fun _ => check_failure) false true String.leb (Some 10) (Some [sample_server]) true w) in
  (status <$> statuses w' !! 1) = Some "down" /\
  (consecutive_failures <$> statuses w' !! 1) = Some 1 /\
  map ping_status (pings w') = ["failure"].
Proof. vm_compute. auto. Qed.

(** End-to-end scenario B: a [down] server recovers, and the recovery is
    sent to the recovery-enabled config. *)
Example scenario_B :
  let w := mkWorld {[ 1 := sample_server ]} [(7, 5)] {[ 1 := status_row "down" 3 3 ]}
             [] [sample_config "webhook"] [] [] [] [] 0 in
  let w' := fst (run_all_checks sample_clock true true true (Some "AC00")
                   (Some "token") (Some "+15550000000") (fun _ _ => true)
                   (fun _ => check_success) false true String.leb (Some 10) (Some [sample_server]) true w) in
  (status <$> statuses w' !! 1) = Some "up" /\
  (consecutive_failures <$> statuses w' !! 1) = Some 0 /\
  (last_up <$> statuses w' !! 1) = Some (Some 10) /\
  outbox w' =
    [(delivery Webhook "api-server" "up" "ops@example.com" true (Some "down"), true)].
Proof. vm_compute. auto. Qed.

Example stream_sample :
  event_stream (fun _ => None) String.leb (stream_request (-1) 50) checked_world =
  ([Retry 5000;
    StatusEvent 1 "api-server" (status_row "up" 3 0);
    PingEvent 1 "api-server"
      {| ping_server := 1; ping_status := "success";
         response_time := Some 12050; status_code := Some 200;
         error_message := Some ""; check_timestamp := 10 |};
    Heartbeat], StreamClosed).
Proof. vm_compute. reflexivity. Qed.

Example stream_bad_server_id :
  event_stream (fun _ => None) String.leb
    {| req_user := 7; status_filter := None; server_ids := Some "abc";
       since_dt := Some 3600000000; ping_limit := 50 |} checked_world
  = ([Retry 5000], StreamRaised).
Proof. vm_compute. reflexivity. Qed.

(** C6, as stated, fails on a config that was created a second ago and
    has never been sent to: its insert stamped [updated_at] with the
    time of the insert, the cooldown check, which reads the clock a
    second later, holds it back, and the alert is not sent. *)
Lemma C6_counterexample :
  let w := create_config sample_clock (sample_config "email") (sample_world [] []) in
  outbox w = [] /\
  configs w = [touch (sample_config "email") 3601000000] /\
  next_reading w = 3602000000 /\
  fst (_can_send_notification sample_clock
         (touch (sample_config "email") 3601000000) w) = false /\
  outbox (sample_notify sample_server (status_row "down" 3 3) (Some "up") w) = [].
Proof.
  cbv zeta. repeat split; vm_compute; reflexivity.
Qed.

(** C5, as stated, fails on a transition from [degraded] to [down]: with
    the cooldown of its config elapsed, the alert is sent again. *)
Lemma C5_counterexample :
  outbox (sample_notify sample_server (status_row "down" 3 3) (Some "degraded")
            (sample_world [sample_config "email"] [])) =
    [(delivery Email "api-server" "down" "ops@example.com" false None, true)] /\
  sample_notify sample_server (status_row "down" 3 3) (Some "degraded")
    (sample_world [sample_config "email"] [])
  <> sample_world [sample_config "email"] [].
Proof.
  split.
  - vm_compute. reflexivity.
  - intros H. apply (f_equal outbox) in H. vm_compute in H. discriminate.
Qed.

Lemma C7_credit_accounting_witness :
  _send_sms sample_clock true true (Some "AC00") (Some "token") (Some "+15550000000")
    (fun _ _ => true) sample_server (status_row "down" 3 3) (sample_config "sms") false
    (sample_world [sample_config "sms"] [sample_account 0 2])
  = sample_world [sample_config "sms"] [sample_account 0 2] /\
  exists a',
    _get_account sample_server
      (_send_email sample_clock true (fun _ _ => true) sample_server
         (status_row "down" 3 3) (sample_config "email") false
         (sample_world [sample_config "email"] [sample_account 0 2])) = Some a' /\
    account_id a' = 1 /\
    email_credits a' = 1 /\
    sms_credits a' = 0.
Proof.
  split.
  - apply (C7_credit_accounting sample_clock true true true (Some "AC00")
             (Some "token") (Some "+15550000000") (fun _ _ => true) sample_server
             (status_row "down" 3 3) (sample_config "sms") false
             (sample_world [sample_config "sms"] [sample_account 0 2])
             (sample_account 0 2) eq_refl).
    cbn. lia.
  - apply (C7_credit_accounting sample_clock true true true (Some "AC00")
             (Some "token") (Some "+15550000000") (fun _ _ => true) sample_server
             (status_row "down" 3 3) (sample_config "email") false
             (sample_world [sample_config "email"] [sample_account 0 2])
             (sample_account 0 2) eq_refl)
      with (d := delivery Email "api-server" "down" "ops@example.com" false None).
    reflexivity.
Defined.

Lemma C9_no_account_is_unlimited_witness :
  _get_account sample_server (sample_world [sample_config "email"] []) = None /\
  (exists ok,
     outbox (_send_email sample_clock true (fun _ _ => true) sample_server
               (status_row "down" 3 3) (sample_config "email") false
               (sample_world [sample_config "email"] [])) =
       [(delivery Email "api-server" "down" "ops@example.com" false None, ok)]) /\
  accounts (_send_email sample_clock true (fun _ _ => true) sample_server
              (status_row "down" 3 3) (sample_config "email") false
              (sample_world [sample_config "email"] [])) = [].
Proof.
  destruct (C9_no_account_is_unlimited sample_clock true true true (Some "AC00")
              (Some "token") (Some "+15550000000") (fun _ _ => true) sample_server
              (status_row "down" 3 3) (sample_config "email") false
              (sample_world [sample_config "email"] []))
    as (Hget & Hmail & Hacc & _ & _).
  - intros o _. reflexivity.
  - intros u _. reflexivity.
  - split; [exact Hget|]. split; [exact (Hmail eq_refl)|exact Hacc].
Defined.

Lemma C10_cycle_status_is_reduced_witness :
  exists row : ServerStatus,
    statuses (fst (run_all_checks sample_clock true true true (Some "AC00")
                     (Some "token") (Some "+15550000000") (fun _ _ => true)
                     (fun _ => check_failure) false true String.leb (Some 10) (Some [sample_server]) true
                     (sample_world [sample_config "email"] [])))
      !! 1 = Some row /\
    reduced_status (status row) /\
    status row <> "unknown".
Proof.
  apply (C10_cycle_status_is_reduced sample_clock true true true (Some "AC00")
           (Some "token") (Some "+15550000000") (fun _ _ => true)
           (fun _ => check_failure) false true String.leb (Some 10) (Some [sample_server]) true
           (sample_world [sample_config "email"] []) sample_server).
  cbn. left. reflexivity.
Defined.

(** * Further properties *)

(** ** Probe executor *)

(** X1. For [tcp] and [icmp] alike the probe makes one connection attempt
    to the server's host and port and classifies it: [success] exactly
    when the connection is established, [timeout] exactly on the socket
    timeout, [failure] exactly on another OS error, whose text is kept as
    the error message; it never reports [error] and never a status
    code; and it reports nothing at all, the exception leaving the
    probe, exactly when the attempt raises an exception that is no OS
    error. *)
Theorem X1_tcp_probe_classification
    (requests_get : string -> Z -> HttpReply)
    (create_connection : string -> Z -> Z -> TcpReply)
    (default_timeout : Z) (server : Server) :
  protocol server = "tcp" \/ protocol server = "icmp" ->
  let tmo := Py.or_int (timeout server) default_timeout in
  let reply := create_connection (host server) (port server) tmo in
  let result := run_check requests_get create_connection default_timeout server in
  snd result = [TcpConnect (host server) (port server) tmo] /\
  (cd_status <$> fst result = Some "success" <->
     exists elapsed, reply = TcpConnected elapsed) /\
  (cd_status <$> fst result = Some "timeout" <-> reply = TcpTimeout) /\
  (cd_status <$> fst result = Some "failure" <->
     exists text, reply = TcpOSError text) /\
  (forall text, reply = TcpOSError text ->
     cd_error_message <$> fst result = Some (Some text)) /\
  cd_status <$> fst result <> Some "error" /\
  (forall data, fst result = Some data -> cd_status_code data = None) /\
  (fst result = None <-> exists text, reply = TcpRaised text).
Proof.
  intros Hproto tmo reply result.
  assert (Htcp : result = _check_tcp create_connection default_timeout server).
  { unfold result, run_check. destruct Hproto as [-> | ->]; reflexivity. }
  rewrite Htcp. unfold _check_tcp. fold tmo reply.
  destruct reply as [elapsed| |text|text]; cbn; repeat split;
    try discriminate; try (intros; discriminate); eauto.
  all: try (intros [e He]; discriminate).
  all: try (intros data [= <-]; reflexivity).
  all: try (intros t Ht; injection Ht as ->; reflexivity).
Qed.

Lemma X1_tcp_probe_classification_witness :
  cd_status <$> fst (run_check (fun _ _ => HttpTimeout)
                       (fun _ _ _ => TcpOSError "refused") 5
                       (mkServer 2 None None "db" "tcp" "127.0.0.1" 5432 "/" 0 "active"))
  = Some "failure".
Proof.
  apply (X1_tcp_probe_classification (fun _ _ => HttpTimeout)
           (fun _ _ _ => TcpOSError "refused") 5
           (mkServer 2 None None "db" "tcp" "127.0.0.1" 5432 "/" 0 "active")).
  - left. reflexivity.
  - exists "refused". reflexivity.
Defined.

(** X2. A probe returns an outcome for every server but one kind: a
    [tcp] or [icmp] server whose connection attempt raises an exception
    that is neither the socket timeout nor another OS error; that
    exception leaves the probe.  An outcome that is returned carries one
    of the four ping statuses and always an error message, which is
    empty when the status is [success]; a response time is present
    exactly when the status is [success] or a status code is; and a
    status code is present only for [http] and [https] servers, with
    status [success] or [failure]. *)
Theorem X2_probe_outcome_shape
    (requests_get : string -> Z -> HttpReply)
    (create_connection : string -> Z -> Z -> TcpReply)
    (default_timeout : Z) (server : Server) :
  let result := fst (run_check requests_get create_connection default_timeout server) in
  (result = None <->
     (protocol server = "tcp" \/ protocol server = "icmp") /\
     exists text,
       create_connection (host server) (port server)
         (Py.or_int (timeout server) default_timeout) = TcpRaised text) /\
  (forall data, result = Some data ->
     ping_status_choice (cd_status data) /\
     cd_error_message data <> None /\
     (cd_status data = "success" -> cd_error_message data = Some "") /\
     (cd_response_time data <> None <->
        cd_status data = "success" \/ cd_status_code data <> None) /\
     (cd_status_code data <> None ->
        (protocol server = "http" \/ protocol server = "https") /\
        (cd_status data = "success" \/ cd_status data = "failure"))).
Proof.
  unfold run_check, _check_tcp, ping_status_choice, Py.str_in. cbn.
  destruct (String.eqb_spec (protocol server) "http") as [Eh|Nh]; cbn;
    [|destruct (String.eqb_spec (protocol server) "https") as [Es|Ns]; cbn;
      [|destruct (String.eqb_spec (protocol server) "tcp") as [Et|Nt]; cbn;
        [|destruct (String.eqb_spec (protocol server) "icmp") as [Ei|Ni]; cbn]]].
  1,2: destruct (requests_get _ _) as [code elapsed| |text]; cbn;
       [destruct (code <? 500)| |]; cbn.
  9,10: destruct (create_connection _ _ _) as [elapsed| |text|text]; cbn.
  all: split;
    [ split;
      [ try discriminate; intros _; split; eauto
      | intros [[Hp|Hp] [text' Hraised]]; first [congruence | reflexivity] ]
    | intros data Hdata; try discriminate Hdata; injection Hdata as <-; cbn ].
  all: repeat split; intros; try discriminate; try congruence; auto 6.
  all: match goal with
       | H : _ \/ _ |- _ => destruct H; congruence
       end.
Qed.

(** A [tcp] server whose host has an empty label: the name cannot be
    encoded, the exception is no OS error, and the probe returns
    nothing. *)
Example probe_raises :
  run_check (fun _ _ => HttpTimeout)
    (fun h _ _ => if String.eqb h "a..b" then TcpRaised "label empty or too long"
                  else TcpConnected 100) 5
    (mkServer 2 None None "db" "tcp" "a..b" 5432 "/" 0 "active")
  = (None, [TcpConnect "a..b" 5432 5]).
Proof. reflexivity. Qed.

(** X3. A probe makes at most one network call: none for an unsupported
    protocol, otherwise one GET of the server's full URL or one
    connection to its host and port, bounded by the server's timeout, or
    by the default timeout when the server's is 0. *)
Theorem X3_probe_network_calls
    (requests_get : string -> Z -> HttpReply)
    (create_connection : string -> Z -> Z -> TcpReply)
    (default_timeout : Z) (server : Server) :
  let calls := snd (run_check requests_get create_connection default_timeout server) in
  let tmo := if timeout server =? 0 then default_timeout else timeout server in
  (length calls <= 1)%nat /\
  (protocol server = "http" \/ protocol server = "https" ->
     calls = [HttpGet (protocol server +:+ "://" +:+ host server +:+ ":"
                         +:+ pretty (port server) +:+ path server) tmo]) /\
  (protocol server = "tcp" \/ protocol server = "icmp" ->
     calls = [TcpConnect (host server) (port server) tmo]) /\
  (calls = [] <-> ~ In (protocol server) ["http"; "https"; "tcp"; "icmp"]).
Proof.
  unfold run_check, Py.str_in. cbn. split; [|split; [|split]].
  - destruct (String.eqb _ _); cbn; [lia|].
    destruct (String.eqb _ _); cbn; [lia|].
    destruct (String.eqb _ _); cbn; [lia|].
    destruct (String.eqb _ _); cbn; lia.
  - intros [E|E]; rewrite E; cbn;
      unfold _check_http, full_url, Py.or_int, Py.str_of_int; cbn;
      rewrite E; reflexivity.
  - intros [E|E]; rewrite E; cbn;
      unfold _check_tcp, Py.or_int; reflexivity.
  - destruct (String.eqb_spec (protocol server) "http") as [Eh|Nh]; cbn;
      [|destruct (String.eqb_spec (protocol server) "https") as [Es|Ns]; cbn;
        [|destruct (String.eqb_spec (protocol server) "tcp") as [Et|Nt]; cbn;
          [|destruct (String.eqb_spec (protocol server) "icmp") as [Ei|Ni]; cbn]]].
    5: { split; [|reflexivity]. intros _ [H|[H|[H|[H|[]]]]]; congruence. }
    all: split; [discriminate|].
    all: intros Hout; exfalso; apply Hout; cbn; auto 6.
Qed.

(** ** Check cycle *)

(** A queryset of servers holds every stored row its filter keeps, once,
    and comes sorted by name. *)
Lemma server_objects_filter_rows name_le keep w :
  server_objects_filter name_le keep w
    ≡ₚ List.filter keep (map snd (map_to_list (servers w))).
Proof. unfold server_objects_filter. apply merge_sort_Permutation. Qed.

Lemma server_objects_filter_In name_le keep w s :
  In s (server_objects_filter name_le keep w) <->
  (exists key, servers w !! key = Some s) /\ keep s = true.
Proof.
  rewrite <- list_elem_of_In, server_objects_filter_rows, list_elem_of_In.
  rewrite filter_In, in_map_iff. split.
  - intros [([key s0] & <- & Hkv) Hkeep]. split; [|exact Hkeep].
    exists key. apply elem_of_map_to_list, list_elem_of_In, Hkv.
  - intros [[key Hkey] Hkeep]. split; [|exact Hkeep].
    exists (key, s). split; [reflexivity|].
    apply list_elem_of_In, elem_of_map_to_list, Hkey.
Qed.

Lemma server_objects_filter_sorted (name_le : string -> string -> bool) keep w :
  (forall a b c : string, name_le a b -> name_le b c -> name_le a c) ->
  (forall a b : string, name_le a b \/ name_le b a) ->
  StronglySorted (by_name name_le) (server_objects_filter name_le keep w).
Proof.
  intros Htrans Htotal. unfold server_objects_filter.
  apply (@StronglySorted_merge_sort _ (by_name name_le) _).
  - intros a b c. unfold by_name. apply Htrans.
  - intros a b. unfold by_name. apply Htotal.
Qed.

Section CycleExtras.

Variable timezone_now : nat -> datetime.
Variables email_enabled sms_enabled twilio_installed : bool.
Variables twilio_account_sid twilio_auth_token twilio_phone_number : option string.
Variable transport : nat -> Delivery -> bool.
Variable service : Server -> CheckData.
Variables running_loop channel_layer : bool.
Variable name_le : string -> string -> bool.

Abbreviation notify_one :=
  (notify_config timezone_now email_enabled sms_enabled twilio_installed
     twilio_account_sid twilio_auth_token twilio_phone_number transport).
Abbreviation notify :=
  (notify_status_change timezone_now email_enabled sms_enabled twilio_installed
     twilio_account_sid twilio_auth_token twilio_phone_number transport).
Abbreviation check_one :=
  (check_server timezone_now email_enabled sms_enabled twilio_installed
     twilio_account_sid twilio_auth_token twilio_phone_number transport service
     running_loop channel_layer).
Abbreviation check_all :=
  (check_servers timezone_now email_enabled sms_enabled twilio_installed
     twilio_account_sid twilio_auth_token twilio_phone_number transport service
     running_loop channel_layer).
Abbreviation run_cycle :=
  (run_all_checks timezone_now email_enabled sms_enabled twilio_installed
     twilio_account_sid twilio_auth_token twilio_phone_number transport service
     running_loop channel_layer name_le).
Abbreviation checked := (servers_checked name_le).

Lemma notify_config_monitoring server st prev rec w c :
  same_monitoring_state w (notify_one server st prev rec w c).
Proof.
  unfold same_monitoring_state, notify_config, _can_send_notification.
  destruct (updated_at c); cbn;
    unfold _send_email, _send_sms, _send_webhook, hand_off, stamp,
      save_consumed, now; cbn;
    split_cases; repeat split.
Qed.

Lemma notify_monitoring server st prev w :
  same_monitoring_state w (notify server st prev w).
Proof.
  assert (Hrefl : same_monitoring_state w w) by (repeat split).
  unfold notify_status_change.
  destruct (_ && _); [exact Hrefl|].
  destruct (_ && _); [exact Hrefl|].
  apply (fold_left_invariant (same_monitoring_state w)); [|exact Hrefl].
  intros x c (H1 & H2 & H3 & H4 & H5 & H6).
  destruct (notify_config_monitoring server st prev (is_recovery st prev) x c)
    as (G1 & G2 & G3 & G4 & G5 & G6).
  repeat split; congruence.
Qed.

(** The update the fan-out builds for a server. *)
Abbreviation update_of t server row :=
  {| b_group := _group_name (server_id server);
     b_ping := ping_of service t server;
     b_status := row |}.

(** Where the fan-out puts its updates: in the log of group sends when
    no event loop is running and a channel layer is configured, among
    the tasks of the loop when one is running, nowhere otherwise. *)
Abbreviation sent_now updates :=
  (if running_loop then [] else if channel_layer then updates else []).
Abbreviation sent_later updates :=
  (if running_loop then updates else @nil Broadcast).

(** What one iteration adds to the ping log, to the fan-out, and to the
    result list. *)
Lemma check_server_log t send w server :
  pings (fst (check_one t send w server)) = ping_of service t server :: pings w /\
  servers (fst (check_one t send w server)) = servers w /\
  (exists row,
     statuses (fst (check_one t send w server)) !! server_id server = Some row /\
     reduced_status (status row) /\
     broadcasts (fst (check_one t send w server)) =
       (broadcasts w ++ sent_now [update_of t server row])%list /\
     scheduled (fst (check_one t send w server)) =
       (scheduled w ++ sent_later [update_of t server row])%list) /\
  snd (check_one t send w server) = (server_id server, cd_status (service server)).
Proof.
  unfold check_server, create_ping, get_or_create, save_status, insert_timestamps,
    now, notify_subscribers, _group_send, ping_of.
  cbn. destruct (statuses w !! server_id server) as [row|]; cbn;
    (match goal with |- context [if ?b && _ then _ else _] => destruct b end); cbn;
    (match goal with
     | |- context [if negb ?b then _ else _] => destruct b
     | _ => idtac
     end); cbn;
    try match goal with
        | |- context [notify ?s ?st ?p ?x] =>
            destruct (notify_monitoring s st p x) as (H1 & H2 & H3 & H4 & H5 & H6);
            rewrite H1, H3, H4, H5, H6
        end;
    destruct running_loop, channel_layer; cbn;
    (split; [reflexivity|]; split; [reflexivity|]; split; [|reflexivity]);
    eexists; (split; [apply lookup_insert_eq|]);
    (split; [apply reduce_status_reduced|]);
    rewrite ?app_nil_r; split; reflexivity.
Qed.

Lemma check_servers_step t send server rest w :
  check_all t send (server :: rest) w =
  (fst (check_all t send rest (fst (check_one t send w server))),
   snd (check_one t send w server)
   :: snd (check_all t send rest (fst (check_one t send w server)))).
Proof.
  cbn [check_servers].
  destruct (check_one t send w server) as [w1 r]. cbn [fst snd].
  destruct (check_all t send rest w1) as [w2 rs]. reflexivity.
Qed.

Lemma check_servers_log t send queryset : forall w,
  snd (check_all t send queryset w) =
    map (fun s => (server_id s, cd_status (service s))) queryset /\
  pings (fst (check_all t send queryset w)) =
    (rev (map (ping_of service t) queryset) ++ pings w)%list /\
  servers (fst (check_all t send queryset w)) = servers w /\
  exists updates,
    map b_group updates = map (fun s => _group_name (server_id s)) queryset /\
    map b_ping updates = map (ping_of service t) queryset /\
    Forall (fun u => reduced_status (status (b_status u))) updates /\
    broadcasts (fst (check_all t send queryset w)) =
      (broadcasts w ++ sent_now updates)%list /\
    scheduled (fst (check_all t send queryset w)) =
      (scheduled w ++ sent_later updates)%list.
Proof.
  induction queryset as [|server rest IH]; intros w.
  - cbn. repeat split. exists [].
    destruct running_loop, channel_layer; rewrite !app_nil_r; auto 6.
  - rewrite check_servers_step. cbn [fst snd].
    destruct (check_server_log t send w server)
      as (Hp & Hs & (row & _ & Hred & Hb & Hl) & Hr).
    destruct (IH (fst (check_one t send w server)))
      as (IHr & IHp & IHs & updates & IHg & IHq & IHred & IHb & IHl).
    split; [|split; [|split]].
    + cbn. rewrite Hr, IHr. reflexivity.
    + rewrite IHp, Hp. cbn. rewrite <- app_assoc. reflexivity.
    + rewrite IHs, Hs. reflexivity.
    + exists (update_of t server row :: updates).
      split; [cbn; rewrite IHg; reflexivity|].
      split; [cbn; rewrite IHq; reflexivity|].
      split; [constructor; [exact Hred|exact IHred]|].
      rewrite IHb, Hb, IHl, Hl.
      destruct running_loop, channel_layer; rewrite <- !app_assoc; cbn; auto.
Qed.

Lemma run_all_checks_unfold now_arg queryset send w :
  exists w1,
    run_cycle now_arg queryset send w =
      check_all (cycle_now timezone_now now_arg w) send (checked queryset w) w1 /\
    servers w1 = servers w /\ statuses w1 = statuses w /\ pings w1 = pings w /\
    broadcasts w1 = broadcasts w /\ configs w1 = configs w /\
    accounts w1 = accounts w /\ outbox w1 = outbox w /\
    scheduled w1 = scheduled w.
Proof.
  unfold run_all_checks, cycle_now, servers_checked, now.
  destruct now_arg as [t|]; eexists; (split; [destruct queryset; reflexivity|]);
    repeat split.
Qed.

(** X4. A cycle returns one pair per server it goes through, in the
    order it goes through them: the server's id and the status of its
    probe outcome; the count of the result is their number.  The
    servers are those of the queryset when one is given.  Otherwise
    they are the stored servers whose status is [active], all of them
    and each row once, sorted by name in the order of the database. *)
Theorem X4_cycle_results
    (now_arg : option datetime) (queryset : option (list Server))
    (send_notifications : bool) (w : World) :
  snd (run_cycle now_arg queryset send_notifications w) =
    map (fun s => (server_id s, cd_status (service s))) (checked queryset w) /\
  length (snd (run_cycle now_arg queryset send_notifications w)) =
    length (checked queryset w) /\
  (forall q, checked (Some q) w = q) /\
  (forall s, In s (checked None w) <->
     (exists key, servers w !! key = Some s) /\ server_status s = "active") /\
  checked None w
    ≡ₚ List.filter (fun s => String.eqb (server_status s) "active")
         (map snd (map_to_list (servers w))) /\
  ((forall a b c : string, name_le a b -> name_le b c -> name_le a c) ->
   (forall a b : string, name_le a b \/ name_le b a) ->
   StronglySorted (fun a b => name_le (name a) (name b)) (checked None w)).
Proof.
  destruct (run_all_checks_unfold now_arg queryset send_notifications w)
    as (w1 & -> & _).
  destruct (check_servers_log (cycle_now timezone_now now_arg w) send_notifications
              (checked queryset w) w1) as (Hr & _).
  rewrite Hr. split; [reflexivity|]. split; [apply length_map|].
  split; [reflexivity|].
  unfold servers_checked, active_servers. split; [|split].
  - intros s. rewrite server_objects_filter_In, String.eqb_eq. reflexivity.
  - apply server_objects_filter_rows.
  - apply server_objects_filter_sorted.
Qed.

(** X5. The ping log is append-only: a cycle puts one ping per server it
    goes through in front of the log, the last server's first, each
    carrying the outcome of that server's probe and the cycle's [now] as
    check timestamp, and leaves the pings that were there untouched. *)
Theorem X5_cycle_pings
    (now_arg : option datetime) (queryset : option (list Server))
    (send_notifications : bool) (w : World) :
  pings (fst (run_cycle now_arg queryset send_notifications w)) =
    (rev (map (ping_of service (cycle_now timezone_now now_arg w))
            (checked queryset w)) ++ pings w)%list.
Proof.
  destruct (run_all_checks_unfold now_arg queryset send_notifications w)
    as (w1 & -> & _ & _ & Hp & _).
  destruct (check_servers_log (cycle_now timezone_now now_arg w) send_notifications
              (checked queryset w) w1) as (_ & Hpings & _).
  rewrite Hpings, Hp. reflexivity.
Qed.

(** X6. The live fan-out does not depend on notifications being
    enabled nor on a status having changed: for every server a cycle
    goes through, in the order it goes through them, one update is built
    for the group named after the server, with that server's ping and a
    status row that carries a reduced status.  What becomes of the
    updates depends on the caller: under a running event loop they are
    only scheduled as tasks on that loop; without one they are handed to
    the channel layer before the cycle returns when a channel layer is
    configured, and dropped when none is. *)
Theorem X6_cycle_broadcasts
    (now_arg : option datetime) (queryset : option (list Server))
    (send_notifications : bool) (w : World) :
  exists updates,
    map b_group updates =
      map (fun s => "server_" +:+ pretty (server_id s)) (checked queryset w) /\
    map b_ping updates =
      map (ping_of service (cycle_now timezone_now now_arg w))
          (checked queryset w) /\
    Forall (fun u => reduced_status (status (b_status u))) updates /\
    broadcasts (fst (run_cycle now_arg queryset send_notifications w)) =
      (broadcasts w ++
       if running_loop then [] else if channel_layer then updates else [])%list /\
    scheduled (fst (run_cycle now_arg queryset send_notifications w)) =
      (scheduled w ++ if running_loop then updates else [])%list.
Proof.
  destruct (run_all_checks_unfold now_arg queryset send_notifications w)
    as (w1 & -> & _ & _ & _ & Hb & _ & _ & _ & Hl).
  destruct (check_servers_log (cycle_now timezone_now now_arg w) send_notifications
              (checked queryset w) w1)
    as (_ & _ & _ & updates & Hg & Hq & Hred & Hadd & Hlater).
  exists updates. rewrite Hadd, Hlater, Hb, Hl. auto 6.
Qed.

Lemma check_servers_other t send queryset : forall w sid,
  ~ In sid (map server_id queryset) ->
  statuses (fst (check_all t send queryset w)) !! sid = statuses w !! sid.
Proof.
  induction queryset as [|server rest IH]; intros w sid Hnot; [reflexivity|].
  rewrite check_servers_step. cbn [fst].
  rewrite IH by (intros H; apply Hnot; right; exact H).
  apply check_server_other. intros ->. apply Hnot. left. reflexivity.
Qed.

(** X7. A cycle writes only the status rows of the servers it goes
    through: the row of any other server, and the absence of one, is
    left as it was. *)
Theorem X7_cycle_leaves_other_rows
    (now_arg : option datetime) (queryset : option (list Server))
    (send_notifications : bool) (w : World) (sid : Z) :
  ~ In sid (map server_id (checked queryset w)) ->
  statuses (fst (run_cycle now_arg queryset send_notifications w)) !! sid =
    statuses w !! sid.
Proof.
  intros Hnot.
  destruct (run_all_checks_unfold now_arg queryset send_notifications w)
    as (w1 & -> & _ & Hs & _).
  rewrite check_servers_other by exact Hnot. rewrite Hs. reflexivity.
Qed.

Opaque reduce_status.

(** An iteration that does not call the dispatcher leaves its side of
    the store alone. *)
Lemma check_server_quiet t send w server :
  send = false \/
  status (prior_status timezone_now (server_id server) w) =
    status (reduce_status (prior_status timezone_now (server_id server) w)
              (service server) t) ->
  outbox (fst (check_one t send w server)) = outbox w /\
  configs (fst (check_one t send w server)) = configs w /\
  accounts (fst (check_one t send w server)) = accounts w.
Proof.
  intros Hquiet.
  unfold prior_status in Hquiet.
  rewrite ?Nat.add_succ_r, ?Nat.add_0_r in Hquiet.
  unfold check_server, create_ping, get_or_create, save_status, insert_timestamps,
    now, notify_subscribers, _group_send.
  cbn -[String.eqb].
  destruct (statuses w !! server_id server) as [row|]; cbn -[String.eqb] in *;
    (destruct Hquiet as [-> | Hsame];
     [cbn | rewrite <- Hsame, String.eqb_refl, andb_false_r; cbn]);
    destruct running_loop, channel_layer; cbn; auto.
Qed.

Transparent reduce_status.

Lemma check_servers_quiet t queryset : forall w,
  outbox (fst (check_all t false queryset w)) = outbox w /\
  configs (fst (check_all t false queryset w)) = configs w /\
  accounts (fst (check_all t false queryset w)) = accounts w.
Proof.
  induction queryset as [|server rest IH]; intros w; [auto|].
  rewrite check_servers_step. cbn [fst].
  destruct (IH (fst (check_one t false w server))) as (Ho & Hc & Ha).
  destruct (check_server_quiet t false w server (or_introl eq_refl)) as (Go & Gc & Ga).
  repeat split; congruence.
Qed.

(** X8. A cycle run with notifications switched off hands nothing to a
    channel transport, stamps no cooldown and consumes no credit, while
    it still records the pings and updates the status rows. *)
Theorem X8_cycle_without_notifications
    (now_arg : option datetime) (queryset : option (list Server)) (w : World) :
  outbox (fst (run_cycle now_arg queryset false w)) = outbox w /\
  configs (fst (run_cycle now_arg queryset false w)) = configs w /\
  accounts (fst (run_cycle now_arg queryset false w)) = accounts w /\
  length (pings (fst (run_cycle now_arg queryset false w))) =
    (length (checked queryset w) + length (pings w))%nat.
Proof.
  destruct (run_all_checks_unfold now_arg queryset false w)
    as (w1 & -> & _ & _ & Hp & _ & Hc & Ha & Ho & _).
  destruct (check_servers_quiet (cycle_now timezone_now now_arg w)
              (checked queryset w) w1) as (Go & Gc & Ga).
  destruct (check_servers_log (cycle_now timezone_now now_arg w) false
              (checked queryset w) w1) as (_ & Hpings & _).
  rewrite Hpings, Hp, length_app, length_rev, length_map.
  repeat split; congruence.
Qed.

(** X9. The dispatcher is called only on a change of the status string:
    an iteration whose reduction leaves the status of the row as it was
    (a healthy server that answers, a [down] server that keeps failing)
    hands nothing to a transport and writes neither a config nor an
    account. *)
Theorem X9_no_notification_without_change
    (t : datetime) (send_notifications : bool) (w : World) (server : Server) :
  status (prior_status timezone_now (server_id server) w) =
    status (reduce_status (prior_status timezone_now (server_id server) w)
              (service server) t) ->
  outbox (fst (check_one t send_notifications w server)) = outbox w /\
  configs (fst (check_one t send_notifications w server)) = configs w /\
  accounts (fst (check_one t send_notifications w server)) = accounts w.
Proof.
  intros Hsame. apply check_server_quiet. right. exact Hsame.
Qed.

End CycleExtras.

(** ** Runs of reductions *)

Lemma reduce_all_threshold steps : forall s,
  failure_threshold (reduce_all s steps) = failure_threshold s.
Proof.
  induction steps as [|step steps IH]; intros s; [reflexivity|].
  cbn. unfold reduce_all in IH. rewrite IH.
  unfold reduce_status. destruct (String.eqb _ _); reflexivity.
Qed.

(** X10. One success resets a row whatever its history: after any run of
    outcomes that ends with a [success], the status is [up], the failure
    count is exactly 0, [last_up] and [last_check] are the time of that
    last cycle and the message is ["OK"], while the threshold is still
    the one the run started with. *)
Theorem X10_success_resets
    (s : ServerStatus) (steps : list (CheckData * datetime))
    (d : CheckData) (t : datetime) :
  cd_status d = "success" ->
  status (reduce_all s (steps ++ [(d, t)])) = "up" /\
  consecutive_failures (reduce_all s (steps ++ [(d, t)])) = 0 /\
  last_up (reduce_all s (steps ++ [(d, t)])) = Some t /\
  last_check (reduce_all s (steps ++ [(d, t)])) = Some t /\
  message (reduce_all s (steps ++ [(d, t)])) = Some "OK" /\
  failure_threshold (reduce_all s (steps ++ [(d, t)])) = failure_threshold s.
Proof.
  intros Hd. rewrite reduce_all_threshold, reduce_all_snoc. cbn [fst snd].
  rewrite (reduce_status_success _ _ _ Hd). cbn. auto 6.
Qed.

Lemma X10_success_resets_witness :
  status (reduce_all (status_row "down" 3 7)
            [(check_failure, 1); (check_success, 2)]) = "up" /\
  consecutive_failures (reduce_all (status_row "down" 3 7)
                          [(check_failure, 1); (check_success, 2)]) = 0.
Proof.
  destruct (X10_success_resets (status_row "down" 3 7) [(check_failure, 1)]
              check_success 2 eq_refl) as (Hs & Hc & _).
  split; [exact Hs|exact Hc].
Defined.

(** X11. Along a streak of non-success outcomes the failure count grows
    by exactly one per outcome, from whatever value the row started
    with, and the status after the streak is [down] exactly when the
    count has reached the threshold and [degraded] exactly when it has
    not; in particular a row that has reached its threshold stays [down]
    for as long as the streak lasts. *)
Theorem X11_failure_streak
    (s : ServerStatus) (steps : list (CheckData * datetime)) :
  Forall non_success steps ->
  steps <> [] ->
  consecutive_failures (reduce_all s steps) =
    consecutive_failures s + Z.of_nat (length steps) /\
  (status (reduce_all s steps) = "down" <->
     failure_threshold s <= consecutive_failures s + Z.of_nat (length steps)) /\
  (status (reduce_all s steps) = "degraded" <->
     consecutive_failures s + Z.of_nat (length steps) < failure_threshold s) /\
  (failure_threshold s <= consecutive_failures s + 1 ->
     status (reduce_all s steps) = "down").
Proof.
  intros Hall Hne.
  destruct (reduce_all_streak s steps Hall Hne) as (Hcf & _ & Hst).
  assert (Hlen : 1 <= Z.of_nat (length steps)).
  { destruct steps; [contradiction|cbn; lia]. }
  split; [exact Hcf|]. rewrite Hst.
  destruct (Z.leb_spec (failure_threshold s)
              (consecutive_failures s + Z.of_nat (length steps)));
    repeat split; intros; try discriminate; try reflexivity; lia.
Qed.

Lemma X11_failure_streak_witness :
  consecutive_failures
    (reduce_all (status_row "down" 3 3) [(check_failure, 1); (check_failure, 2)]) = 5 /\
  status (reduce_all (status_row "down" 3 3) [(check_failure, 1); (check_failure, 2)])
    = "down".
Proof.
  destruct (X11_failure_streak (status_row "down" 3 3)
              [(check_failure, 1); (check_failure, 2)]) as (Hcf & _ & _ & Hdown).
  - repeat constructor; discriminate.
  - discriminate.
  - split; [exact Hcf|]. apply Hdown. cbn. lia.
Defined.

(** ** Dispatcher *)

Lemma fold_left_invariant_in {A B : Type} (P : A -> Prop) (f : A -> B -> A)
    (l : list B) (a : A) :
  (forall x y, In y l -> P x -> P (f x y)) -> P a -> P (fold_left f l a).
Proof.
  revert a. induction l as [|y l IH]; intros a Hstep Ha; [exact Ha|].
  cbn. apply IH.
  - intros x z Hz. apply Hstep. right. exact Hz.
  - apply Hstep; [left; reflexivity|exact Ha].
Qed.

(** X12. The credit account of a server is its organization's account
    whenever the organization has one, whatever the owner has; it is the
    owner's account only when the server has no organization or the
    organization has no account; and it is never the account of anyone
    else: an account that is returned is a row of the table that is
    linked to the server's organization or to its owner. *)
Theorem X12_account_resolution (server : Server) (w : World) :
  (forall o a,
     organization server = Some o ->
     org_billing_account o (accounts w) = Some a ->
     _get_account server w = Some a) /\
  ((forall o, organization server = Some o ->
              org_billing_account o (accounts w) = None) ->
   _get_account server w =
     match owner server with
     | Some u => user_billing_account u (accounts w)
     | None => None
     end) /\
  (forall a,
     _get_account server w = Some a ->
     In a (accounts w) /\
     ((exists o, organization server = Some o /\
                 account_organization a = Some (org_id o)) \/
      (exists u, owner server = Some u /\ account_user a = Some (user_id u)))).
Proof.
  unfold _get_account, org_billing_account, user_billing_account.
  split; [|split].
  - intros o a -> ->. reflexivity.
  - intros Hnone. destruct (organization server) as [o|]; [|reflexivity].
    specialize (Hnone o eq_refl). cbn in Hnone. rewrite Hnone. reflexivity.
  - intros a Hget.
    assert (Howner : match owner server with
                     | Some u => List.find (fun a0 => bool_decide
                                   (account_user a0 = Some (user_id u))) (accounts w)
                     | None => None
                     end = Some a ->
                     In a (accounts w) /\
                     exists u, owner server = Some u /\
                               account_user a = Some (user_id u)).
    { destruct (owner server) as [u|]; [|discriminate].
      intros Hf. apply find_some in Hf as [Hin Hb].
      apply bool_decide_eq_true in Hb. split; [exact Hin|]. exists u. auto. }
    destruct (organization server) as [o|].
    + destruct (List.find _ (accounts w)) as [b|] eqn:Horg.
      * injection Hget as ->. apply find_some in Horg as [Hin Hb].
        apply bool_decide_eq_true in Hb. split; [exact Hin|].
        left. exists o. auto.
      * destruct (Howner Hget) as [Hin Hu]. auto.
    + destruct (Howner Hget) as [Hin Hu]. auto.
Qed.

Section DispatchExtras.

Variable timezone_now : nat -> datetime.
Variables email_enabled sms_enabled twilio_installed : bool.
Variables twilio_account_sid twilio_auth_token twilio_phone_number : option string.
Variable transport : nat -> Delivery -> bool.

Abbreviation notify_one :=
  (notify_config timezone_now email_enabled sms_enabled twilio_installed
     twilio_account_sid twilio_auth_token twilio_phone_number transport).
Abbreviation notify :=
  (notify_status_change timezone_now email_enabled sms_enabled twilio_installed
     twilio_account_sid twilio_auth_token twilio_phone_number transport).

(** X13. The dispatcher never writes the monitoring side of the store:
    whatever the transition and the configs, the servers, the
    memberships, the status rows, the ping log and the two logs of the
    live fan-out are after a dispatch what they were before. *)
Theorem X13_dispatch_leaves_monitoring_state
    (server : Server) (st : ServerStatus) (previous_status : option string)
    (w : World) :
  servers (notify server st previous_status w) = servers w /\
  memberships (notify server st previous_status w) = memberships w /\
  statuses (notify server st previous_status w) = statuses w /\
  pings (notify server st previous_status w) = pings w /\
  broadcasts (notify server st previous_status w) = broadcasts w /\
  scheduled (notify server st previous_status w) = scheduled w.
Proof.
  apply (notify_monitoring timezone_now email_enabled sms_enabled twilio_installed
           twilio_account_sid twilio_auth_token twilio_phone_number transport).
Qed.

(** X14. For one config, the cooldown cursor is stamped and a credit is
    consumed only by a hand-off that succeeded: when the config is
    skipped (cooldown, disabled channel, exhausted credit, gateway not
    configured) or its transport fails, the configs and the accounts
    are left exactly as they were. *)
Theorem X14_no_success_no_write
    (server : Server) (st : ServerStatus) (previous_status : option string)
    (recovering : bool) (w : World) (config : NotificationConfig) :
  (forall d, outbox (notify_one server st previous_status recovering w config)
             <> (outbox w ++ [(d, true)])%list) ->
  configs (notify_one server st previous_status recovering w config) = configs w /\
  accounts (notify_one server st previous_status recovering w config) = accounts w.
Proof.
  unfold notify_config, _can_send_notification.
  destruct (updated_at config); cbn;
    unfold _send_email, _send_sms, _send_webhook, hand_off, stamp, now; cbn;
    split_cases; intros Hfail; auto;
    exfalso; eapply Hfail; reflexivity.
Qed.

Lemma stamp_config_rows c t tbl :
  (forall r, In r (stamp_config c t tbl) -> config_id r = config_id c ->
             updated_at r = Some t) /\
  (forall r, In r tbl -> config_id r <> config_id c -> In r (stamp_config c t tbl)) /\
  map config_id (stamp_config c t tbl) = map config_id tbl.
Proof.
  unfold stamp_config. split; [|split].
  - intros r Hin Hid. apply in_map_iff in Hin as (r0 & Hr & _).
    destruct (Z.eqb_spec (config_id r0) (config_id c)) as [E|E]; subst r.
    + reflexivity.
    + contradiction.
  - intros r Hin Hid. apply in_map_iff. exists r. split; [|exact Hin].
    destruct (Z.eqb_spec (config_id r) (config_id c)); [contradiction|reflexivity].
  - rewrite map_map. apply map_ext. intros r.
    destruct (config_id r =? config_id c); reflexivity.
Qed.

Lemma stamped_after_shift extra config w0 w w' :
  configs w0 = configs w ->
  stamped_after timezone_now extra config w0 w' ->
  forall c, clock_reads w0 = (clock_reads w + c)%nat ->
    configs w' =
      stamp_config config (timezone_now (clock_reads w + (c + extra) + 1)%nat)
        (configs w) /\
    clock_reads w' = (clock_reads w + (c + extra) + 2)%nat.
Proof.
  intros Hc [Hcfg Hclock] c Hr. rewrite Hcfg, Hclock, Hc, Hr.
  rewrite !Nat.add_assoc. split; reflexivity.
Qed.

Lemma send_email_stamped server st config rec w d :
  outbox (_send_email timezone_now email_enabled transport server st config rec w)
    = (outbox w ++ [(d, true)])%list ->
  stamped_after timezone_now
    (match _get_account server w with Some _ => 1 | None => 0 end) config w
    (_send_email timezone_now email_enabled transport server st config rec w).
Proof.
  unfold _send_email, stamped_after.
  destruct email_enabled; cbn -[Nat.add]; [|intros H; destruct (app_one_neq _ _ H)].
  destruct (_get_account server w) as [a|] eqn:Hget.
  - destruct (Z.leb_spec (email_credits a) 0) as [Hle|Hpos];
      [intros H; destruct (app_one_neq _ _ H)|].
    unfold hand_off. cbn -[Nat.add]. destruct (transport _ _); cbn -[Nat.add].
    + intros _. unfold consume_email.
      destruct (Z.leb_spec (email_credits a) 0) as [Hle|_]; [lia|].
      unfold save_consumed, stamp, now. cbn -[Nat.add].
      rewrite ?Nat.add_succ_r, ?Nat.add_0_r. split; reflexivity.
    + intros H. apply app_inj_tail in H as [_ H]. discriminate.
  - unfold hand_off. cbn -[Nat.add]. destruct (transport _ _); cbn -[Nat.add].
    + intros _. unfold stamp, now. cbn -[Nat.add].
      rewrite ?Nat.add_succ_r, ?Nat.add_0_r. split; reflexivity.
    + intros H. apply app_inj_tail in H as [_ H]. discriminate.
Qed.

Lemma send_sms_stamped server st config rec w d :
  outbox (_send_sms timezone_now sms_enabled twilio_installed twilio_account_sid
            twilio_auth_token twilio_phone_number transport server st config rec w)
    = (outbox w ++ [(d, true)])%list ->
  stamped_after timezone_now
    (match _get_account server w with Some _ => 1 | None => 0 end) config w
    (_send_sms timezone_now sms_enabled twilio_installed twilio_account_sid
       twilio_auth_token twilio_phone_number transport server st config rec w).
Proof.
  unfold _send_sms, stamped_after.
  destruct sms_enabled; cbn -[Nat.add]; [|intros H; destruct (app_one_neq _ _ H)].
  destruct (_get_account server w) as [a|] eqn:Hget.
  - destruct (Z.leb_spec (sms_credits a) 0) as [Hle|Hpos];
      [intros H; destruct (app_one_neq _ _ H)|].
    destruct twilio_installed; cbn -[Nat.add];
      [|intros H; destruct (app_one_neq _ _ H)].
    destruct (_ && _); cbn -[Nat.add]; [|intros H; destruct (app_one_neq _ _ H)].
    unfold hand_off. cbn -[Nat.add]. destruct (transport _ _); cbn -[Nat.add].
    + intros _. unfold consume_sms.
      destruct (Z.leb_spec (sms_credits a) 0) as [Hle|_]; [lia|].
      unfold save_consumed, stamp, now. cbn -[Nat.add].
      rewrite ?Nat.add_succ_r, ?Nat.add_0_r. split; reflexivity.
    + intros H. apply app_inj_tail in H as [_ H]. discriminate.
  - destruct twilio_installed; cbn -[Nat.add];
      [|intros H; destruct (app_one_neq _ _ H)].
    destruct (_ && _); cbn -[Nat.add]; [|intros H; destruct (app_one_neq _ _ H)].
    unfold hand_off. cbn -[Nat.add]. destruct (transport _ _); cbn -[Nat.add].
    + intros _. unfold stamp, now. cbn -[Nat.add].
      rewrite ?Nat.add_succ_r, ?Nat.add_0_r. split; reflexivity.
    + intros H. apply app_inj_tail in H as [_ H]. discriminate.
Qed.

Lemma send_webhook_stamped server st config rec prev w d :
  outbox (_send_webhook timezone_now transport server st config rec prev w)
    = (outbox w ++ [(d, true)])%list ->
  stamped_after timezone_now 1 config w
    (_send_webhook timezone_now transport server st config rec prev w).
Proof.
  unfold _send_webhook, stamped_after, hand_off, now. cbn -[Nat.add].
  destruct (transport _ _); cbn -[Nat.add].
  - intros _. unfold stamp, now. cbn -[Nat.add].
    rewrite ?Nat.add_succ_r, ?Nat.add_0_r. split; reflexivity.
  - intros H. apply app_inj_tail in H as [_ H]. discriminate.
Qed.

(** X15. A hand-off that succeeds stamps the cooldown cursor with the
    time of the save, not with a time taken before: after the readings
    of the clock that precede the stamp (one by the cooldown check when
    [updated_at] is set, one for the [timestamp] of a webhook payload or
    one for the save of the account an email or SMS was charged to), the
    send reads the clock for the assignment and once more inside the
    save, and it is this last reading that the rows of the config (those
    with its id) get as [updated_at]; the other rows are kept; and from
    then on the cooldown check holds such a row back for as long as
    less than its minimum interval has elapsed since that reading. *)
Theorem X15_success_starts_cooldown
    (server : Server) (st : ServerStatus) (previous_status : option string)
    (recovering : bool) (w : World) (config : NotificationConfig) (d : Delivery) :
  outbox (notify_one server st previous_status recovering w config)
    = (outbox w ++ [(d, true)])%list ->
  let w' := notify_one server st previous_status recovering w config in
  let before_stamp :=
    ((match updated_at config with Some _ => 1 | None => 0 end) +
     (if String.eqb (notification_type config) "webhook" then 1
      else match _get_account server w with Some _ => 1 | None => 0 end))%nat in
  let t := timezone_now (clock_reads w + before_stamp + 1)%nat in
  clock_reads w' = (clock_reads w + before_stamp + 2)%nat /\
  map config_id (configs w') = map config_id (configs w) /\
  (forall r, In r (configs w) -> config_id r <> config_id config ->
             In r (configs w')) /\
  (forall r, In r (configs w') -> config_id r = config_id config ->
     updated_at r = Some t /\
     forall w2, timezone_now (clock_reads w2) - t
                  < timedelta_seconds (min_notification_interval r) ->
                fst (_can_send_notification timezone_now r w2) = false).
Proof.
  intros Hsent w' before_stamp t.
  assert (Hcfg : configs w' = stamp_config config t (configs w) /\
                 clock_reads w' = (clock_reads w + before_stamp + 2)%nat).
  { revert Hsent. unfold w', t, before_stamp, notify_config.
    destruct (_can_send_notification timezone_now config w) as [can w1] eqn:Hcan.
    assert (Hw1 : configs w1 = configs w /\ accounts w1 = accounts w /\
                  outbox w1 = outbox w /\
                  clock_reads w1 =
                    (clock_reads w +
                     match updated_at config with Some _ => 1 | None => 0 end)%nat).
    { unfold _can_send_notification, now in Hcan.
      destruct (updated_at config); injection Hcan as _ <-; cbn;
        rewrite ?Nat.add_0_r, ?Nat.add_1_r; auto. }
    destruct Hw1 as (Hc1 & Ha1 & Ho1 & Hr1).
    assert (Hget : _get_account server w1 = _get_account server w)
      by (apply get_account_ext; exact Ha1).
    rewrite <- Ho1.
    destruct can; cbn [negb]; [|intros H; destruct (app_one_neq _ _ H)].
    destruct (String.eqb_spec (notification_type config) "email") as [Ee|Ne].
    { intros Hsent. rewrite Ee. cbn [String.eqb Ascii.eqb Bool.eqb].
      rewrite <- Hget.
      exact (stamped_after_shift _ config w1 w _ Hc1
               (send_email_stamped server st config recovering w1 d Hsent) _ Hr1). }
    destruct (String.eqb_spec (notification_type config) "sms") as [Es|Ns].
    { intros Hsent. rewrite Es. cbn [String.eqb Ascii.eqb Bool.eqb].
      rewrite <- Hget.
      exact (stamped_after_shift _ config w1 w _ Hc1
               (send_sms_stamped server st config recovering w1 d Hsent) _ Hr1). }
    destruct (String.eqb_spec (notification_type config) "webhook") as [Eh|Nh].
    { intros Hsent.
      exact (stamped_after_shift _ config w1 w _ Hc1
               (send_webhook_stamped server st config recovering previous_status
                  w1 d Hsent) _ Hr1). }
    intros H. destruct (app_one_neq _ _ H). }
  destruct Hcfg as [Hcfg Hclock]. rewrite Hcfg.
  destruct (stamp_config_rows config t (configs w)) as (Hstamp & Hkeep & Hids).
  split; [exact Hclock|]. split; [exact Hids|]. split; [exact Hkeep|].
  intros r Hin Hid. pose proof (Hstamp r Hin Hid) as Hup.
  split; [exact Hup|].
  intros w2 Hlt. unfold _can_send_notification, now. rewrite Hup. cbn.
  apply Z.leb_gt. exact Hlt.
Qed.

(** X16. The webhook channel is not metered: a webhook config that
    passes the cooldown check is always handed to the transport, with
    the previous status in its payload, whatever the channel settings
    and the credit accounts are, and the accounts are left untouched. *)
Theorem X16_webhook_is_unmetered
    (server : Server) (st : ServerStatus) (previous_status : option string)
    (recovering : bool) (w : World) (config : NotificationConfig) :
  notification_type config = "webhook" ->
  fst (_can_send_notification timezone_now config w) = true ->
  (exists ok,
     outbox (notify_one server st previous_status recovering w config) =
       (outbox w ++ [(delivery Webhook (name server) (status st) (recipient config)
                        recovering previous_status, ok)])%list) /\
  accounts (notify_one server st previous_status recovering w config) = accounts w.
Proof.
  intros Htype. unfold notify_config, _can_send_notification. rewrite Htype.
  destruct (updated_at config); cbn; intros Hcan; rewrite ?Hcan; cbn;
    unfold _send_webhook, hand_off, stamp, now; cbn;
    destruct (transport _ _); cbn; (split; [eexists; reflexivity|reflexivity]).
Qed.

(** What one config adds to the log: at most one hand-off, addressed to
    the config's recipient on the channel of its type. *)
Lemma notify_config_deliveries server st prev rec w c :
  exists new,
    outbox (notify_one server st prev rec w c) = (outbox w ++ new)%list /\
    Forall (fun e =>
              d_recipient (fst e) = recipient c /\
              channel_of_type (notification_type c) (d_channel (fst e)) /\
              d_is_recovery (fst e) = rec /\
              d_server_name (fst e) = name server /\
              d_new_status (fst e) = status st) new.
Proof.
  unfold notify_config, _can_send_notification.
  destruct (updated_at c); cbn;
    unfold _send_email, _send_sms, _send_webhook, hand_off, stamp, now; cbn;
    split_cases;
    repeat match goal with
           | H : String.eqb _ _ = true |- _ => apply String.eqb_eq in H
           end;
    first [ exists []; split; [symmetry; apply app_nil_r | constructor]
          | eexists [_]; split; [reflexivity | repeat constructor; assumption] ].
Qed.

(** X17. A dispatch reaches only the configs it selects: everything it
    hands to a transport is addressed to the recipient of an enabled
    config of the server at hand, on the channel of that config's type,
    and that config has [notify_on_failure] set when the message is an
    alert and [notify_on_recovery] set when it is a recovery. *)
Theorem X17_only_selected_configs
    (server : Server) (st : ServerStatus) (previous_status : option string)
    (w : World) :
  exists new,
    outbox (notify server st previous_status w) = (outbox w ++ new)%list /\
    forall e, In e new ->
      exists c,
        In c (configs w) /\
        config_server c = server_id server /\
        enabled c = true /\
        (if d_is_recovery (fst e) then notify_on_recovery c = true
         else notify_on_failure c = true) /\
        d_recipient (fst e) = recipient c /\
        channel_of_type (notification_type c) (d_channel (fst e)) /\
        d_server_name (fst e) = name server /\
        d_new_status (fst e) = status st.
Proof.
  set (good := fun e : Delivery * bool =>
         exists c,
           In c (configs w) /\
           config_server c = server_id server /\
           enabled c = true /\
           (if d_is_recovery (fst e) then notify_on_recovery c = true
            else notify_on_failure c = true) /\
           d_recipient (fst e) = recipient c /\
           channel_of_type (notification_type c) (d_channel (fst e)) /\
           d_server_name (fst e) = name server /\
           d_new_status (fst e) = status st).
  assert (Hnil : exists new, outbox w = (outbox w ++ new)%list /\
                             forall e, In e new -> good e).
  { exists []. split; [symmetry; apply app_nil_r|]. intros e []. }
  unfold notify_status_change.
  destruct (_ && _); [exact Hnil|].
  destruct (negb (is_failure st) && negb (is_recovery st previous_status)) eqn:Hclass;
    [exact Hnil|].
  apply (fold_left_invariant_in
           (fun x => exists new, outbox x = (outbox w ++ new)%list /\
                                 forall e, In e new -> good e)); [|exact Hnil].
  intros x c Hc (new & Hx & Hnew).
  destruct (notify_config_deliveries server st previous_status
              (is_recovery st previous_status) x c) as (more & Hmore & Hshape).
  exists (new ++ more)%list. split; [rewrite Hmore, Hx, app_assoc; reflexivity|].
  intros e He. apply in_app_or in He as [He|He]; [apply Hnew, He|].
  rewrite Forall_forall in Hshape.
  destruct (Hshape e) as (Hrcp & Hch & Hrec & Hname & Hst);
    [apply list_elem_of_In; exact He|].
  unfold selected_configs in Hc.
  apply list_elem_of_In in Hc. rewrite merge_sort_Permutation in Hc.
  apply list_elem_of_In in Hc.
  exists c. rewrite Hrec.
  assert (Hsel : In c (configs w) /\ config_server c = server_id server /\
                 enabled c = true /\
                 (if is_recovery st previous_status then notify_on_recovery c = true
                  else notify_on_failure c = true)).
  { destruct (is_failure st) eqn:Hf.
    - assert (Hr : is_recovery st previous_status = false).
      { unfold is_failure, is_recovery, Py.str_in in *. cbn in Hf.
        destruct (String.eqb_spec (status st) "down") as [E|_];
          [rewrite E, andb_false_r; reflexivity|].
        destruct (String.eqb_spec (status st) "degraded") as [E|_];
          [rewrite E, andb_false_r; reflexivity|discriminate]. }
      rewrite Hr. apply filter_In in Hc as [Hc Hflag].
      apply filter_In in Hc as [Hc Hsrv].
      apply andb_true_iff in Hsrv as [Hsrv Hen]. apply Z.eqb_eq in Hsrv. auto.
    - destruct (is_recovery st previous_status) eqn:Hr; [|discriminate].
      apply filter_In in Hc as [Hc Hflag].
      apply filter_In in Hc as [Hc Hsrv].
      apply andb_true_iff in Hsrv as [Hsrv Hen]. apply Z.eqb_eq in Hsrv. auto. }
  destruct Hsel as (H1 & H2 & H3 & H4). auto 10.
Qed.

End DispatchExtras.

(** X18. Credits are consumed one at a time and never below zero: after
    [n] calls of [consume_email] an account that had [k >= 0] email
    credits has [max(0, k - n)] of them, an account whose counter was
    not positive is returned unchanged, and in no case are the SMS
    counter or the links of the account touched; the same holds for
    [consume_sms] with the counters exchanged. *)
Theorem X18_repeated_consumption (n : nat) (a : UserAccount) :
  (0 <= email_credits a ->
     email_credits (consume_emails n a) = Z.max 0 (email_credits a - Z.of_nat n)) /\
  (email_credits a <= 0 -> consume_emails n a = a) /\
  sms_credits (consume_emails n a) = sms_credits a /\
  account_id (consume_emails n a) = account_id a /\
  (0 <= sms_credits a ->
     sms_credits (consume_smses n a) = Z.max 0 (sms_credits a - Z.of_nat n)) /\
  (sms_credits a <= 0 -> consume_smses n a = a) /\
  email_credits (consume_smses n a) = email_credits a /\
  account_id (consume_smses n a) = account_id a.
Proof.
  unfold consume_emails, consume_smses.
  induction n as [|n IH].
  - cbn. repeat split; intros; lia.
  - destruct IH as (He & Hez & Hes & Hei & Hs & Hsz & Hse & Hsi).
    rewrite Nat2Z.inj_succ, !Nat.iter_succ.
    set (e := Nat.iter n (fun acc => fst (consume_email acc)) a) in *.
    set (s := Nat.iter n (fun acc => fst (consume_sms acc)) a) in *.
    clearbody e s. cbn beta.
    unfold consume_email, consume_sms.
    repeat split.
    + intros H0. specialize (He H0).
      destruct (Z.leb_spec (email_credits e) 0); cbn; lia.
    + intros H0. rewrite (Hez H0).
      destruct (Z.leb_spec (email_credits a) 0); [reflexivity|lia].
    + destruct (email_credits e <=? 0); cbn; exact Hes.
    + destruct (email_credits e <=? 0); cbn; exact Hei.
    + intros H0. specialize (Hs H0).
      destruct (Z.leb_spec (sms_credits s) 0); cbn; lia.
    + intros H0. rewrite (Hsz H0).
      destruct (Z.leb_spec (sms_credits a) 0); [reflexivity|lia].
    + destruct (sms_credits s <=? 0); cbn; exact Hse.
    + destruct (sms_credits s <=? 0); cbn; exact Hsi.
Qed.

(** ** Live fan-out and stream *)

(** X19. Group names tell servers apart: two servers have the same
    group name only if they have the same id, so an update sent for one
    server never lands in the group of another. *)
Theorem X19_group_name_injective (a b : Z) :
  _group_name a = _group_name b -> a = b.
Proof.
  unfold _group_name, Py.str_of_int. intros H.
  apply (inj (String.append "server_")) in H.
  apply (inj pretty) in H. exact H.
Qed.

Lemma X19_group_name_injective_witness : (12 : Z) = 12.
Proof.
  apply X19_group_name_injective. reflexivity.
Defined.

Lemma string_app_nil_r (s : string) : s +:+ "" = s.
Proof.
  induction s as [|c s IH]; [reflexivity|].
  change (String c s +:+ "") with (String c (s +:+ "")). rewrite IH. reflexivity.
Qed.

Lemma string_app_assoc (a b c : string) : (a +:+ b) +:+ c = a +:+ (b +:+ c).
Proof.
  induction a as [|x a IH]; [reflexivity|].
  change (String x a +:+ b) with (String x (a +:+ b)).
  change (String x (a +:+ b) +:+ c) with (String x ((a +:+ b) +:+ c)).
  rewrite IH. reflexivity.
Qed.

Lemma split_comma_aux_join acc s :
  join_comma (split_comma_aux acc s) = acc +:+ s /\
  split_comma_aux acc s <> [] /\
  length (split_comma_aux acc s) = S (count_commas s).
Proof.
  revert acc. induction s as [|c s IH]; intros acc; cbn.
  - rewrite string_app_nil_r. repeat split. discriminate.
  - destruct (Ascii.eqb_spec c ","%char) as [->|Hc].
    + destruct (IH "") as (Hj & Hne & Hlen).
      repeat split; [|discriminate|cbn; rewrite Hlen; reflexivity].
      destruct (split_comma_aux "" s) as [|p ps] eqn:Hsplit; [contradiction|].
      change (join_comma (acc :: p :: ps))
        with (acc +:+ "," +:+ join_comma (p :: ps)).
      rewrite Hj. reflexivity.
    + destruct (IH (acc +:+ String c "")) as (Hj & Hne & Hlen).
      repeat split; [|exact Hne|exact Hlen].
      rewrite Hj, string_app_assoc. reflexivity.
Qed.

(** X20. Splitting the [server_id] parameter loses nothing: joining the
    pieces with commas gives the parameter back, there is one more piece
    than there are commas (so never no piece at all, the empty string
    giving one empty piece). *)
Theorem X20_split_comma_round_trip (s : string) :
  join_comma (split_comma s) = s /\
  length (split_comma s) = S (count_commas s) /\
  split_comma "" = [""].
Proof.
  unfold split_comma.
  destruct (split_comma_aux_join "" s) as (Hj & _ & Hlen). auto.
Qed.

Lemma ping_times_status_events (l : list (Server * ServerStatus)) :
  ping_times (map (fun sr : Server * ServerStatus =>
                     StatusEvent (server_id (fst sr)) (name (fst sr)) (snd sr)) l) = [].
Proof. induction l as [|x l IH]; [reflexivity|exact IH]. Qed.

Lemma ping_times_ping_events (l : list (Server * PingResult)) :
  ping_times (map (fun sp : Server * PingResult =>
                     PingEvent (server_id (fst sp)) (name (fst sp)) (snd sp)) l) =
  map (fun sp => check_timestamp (snd sp)) l.
Proof.
  induction l as [|x l IH]; [reflexivity|].
  unfold ping_times in *. cbn. rewrite IH. reflexivity.
Qed.


Lemma filter_ping_ping_events (l : list (Server * PingResult)) :
  length (List.filter is_ping_event
            (map (fun sp : Server * PingResult =>
                    PingEvent (server_id (fst sp)) (name (fst sp)) (snd sp)) l)) =
  length l.
Proof. induction l as [|x l IH]; [reflexivity|cbn; rewrite IH; reflexivity]. Qed.

Section StreamExtras.

Variable int_of_str : string -> option Z.
Variable name_le : string -> string -> bool.

Abbreviation stream := (event_stream int_of_str name_le).


(** X22. The stream shows a user only what belongs to the user's
    organizations and is newer than the cursor: every status event is
    the stored row of a server whose organization the user is a member
    of, matches the status filter when one is given, and, when a cursor
    is given, was updated strictly after it; every ping event is a
    stored ping of such a server, checked strictly after the cursor. *)
Theorem X22_stream_isolation (r : StreamRequest) (w : World) (c : Chunk) :
  In c (fst (stream r w)) ->
  match c with
  | StatusEvent sid server_name row =>
      exists key srv o,
        servers w !! key = Some srv /\
        statuses w !! key = Some row /\
        sid = server_id srv /\
        server_name = name srv /\
        organization srv = Some o /\
        In (req_user r, org_id o) (memberships w) /\
        (forall f, status_filter r = Some f -> f <> "" -> status row = f) /\
        (forall since, since_dt r = Some since -> since < status_updated_at row)
  | PingEvent sid server_name p =>
      exists srv o,
        servers w !! ping_server p = Some srv /\
        In p (pings w) /\
        sid = server_id srv /\
        server_name = name srv /\
        organization srv = Some o /\
        In (req_user r, org_id o) (memberships w) /\
        (forall since, since_dt r = Some since -> since < check_timestamp p)
  | Retry _ | Heartbeat => True
  end.
Proof.
  assert (Hvis : forall ids key srv,
            visible_server (_organization_ids (req_user r) w) ids key w = Some srv ->
            servers w !! key = Some srv /\
            exists o, organization srv = Some o /\
                      In (req_user r, org_id o) (memberships w)).
  { intros ids key srv. unfold visible_server.
    destruct (servers w !! key) as [s0|]; [|discriminate].
    destruct (organization s0) as [o|] eqn:Ho; [|discriminate].
    destruct (bool_decide _ && _) eqn:Hb; [|discriminate].
    intros [= <-]. split; [reflexivity|]. exists o. split; [exact Ho|].
    apply andb_true_iff in Hb as [Hb _]. apply bool_decide_eq_true in Hb.
    unfold _organization_ids in Hb.
    apply list_elem_of_In, in_map_iff in Hb as ([u g] & Hg & Hin).
    apply filter_In in Hin as [Hin Hu]. cbn in Hg, Hu.
    apply Z.eqb_eq in Hu. subst. exact Hin. }
  assert (Hsince : forall t since,
            newer_than (since_dt r) t = true -> since_dt r = Some since -> since < t).
  { intros t since Hn Hs. unfold newer_than in Hn. rewrite Hs in Hn.
    apply Z.ltb_lt. exact Hn. }
  assert (Hstatus : forall ids sr, In sr (stream_statuses name_le r ids w) ->
            exists key o,
              servers w !! key = Some (fst sr) /\
              statuses w !! key = Some (snd sr) /\
              organization (fst sr) = Some o /\
              In (req_user r, org_id o) (memberships w) /\
              (forall f, status_filter r = Some f -> f <> "" -> status (snd sr) = f) /\
              (forall since, since_dt r = Some since ->
                             since < status_updated_at (snd sr))).
  { intros ids sr Hin. unfold stream_statuses in Hin.
    apply list_elem_of_In in Hin. rewrite merge_sort_Permutation in Hin.
    apply list_elem_of_omap in Hin as ([key row] & Hkv & Hf). cbn in Hf.
    apply elem_of_map_to_list in Hkv.
    destruct (visible_server _ ids key w) as [srv|] eqn:Hv; [|discriminate].
    destruct (_ && _) eqn:Hb; [|discriminate]. injection Hf as <-. cbn.
    apply andb_true_iff in Hb as [Hflt Hnew].
    destruct (Hvis ids key srv Hv) as (Hsrv & o & Ho & Hm).
    exists key, o. repeat split; auto;
      try (intros since; apply Hsince; exact Hnew).
    intros f Hf Hne. rewrite Hf in Hflt. unfold Py.truthy in Hflt.
    destruct (String.eqb_spec f ""); [contradiction|]. cbn in Hflt.
    apply String.eqb_eq. exact Hflt. }
  assert (Hping : forall ids sp, In sp (stream_pings r ids w) ->
            exists o,
              servers w !! ping_server (snd sp) = Some (fst sp) /\
              In (snd sp) (pings w) /\
              organization (fst sp) = Some o /\
              In (req_user r, org_id o) (memberships w) /\
              (forall since, since_dt r = Some since ->
                             since < check_timestamp (snd sp))).
  { intros ids sp Hin. unfold stream_pings in Hin.
    apply list_elem_of_In in Hin. rewrite merge_sort_Permutation in Hin.
    apply list_elem_of_omap in Hin as (p & Hp & Hf).
    apply list_elem_of_In in Hp.
    destruct (visible_server _ ids (ping_server p) w) as [srv|] eqn:Hv; [|discriminate].
    destruct (newer_than _ _) eqn:Hnew; [|discriminate]. injection Hf as <-. cbn.
    destruct (Hvis ids _ srv Hv) as (Hsrv & o & Ho & Hm).
    exists o. repeat split; auto; intros since; apply Hsince; exact Hnew. }
  unfold event_stream.
  destruct (id_filter int_of_str r) as [ids|]; cbn.
  - assert (Hs : forall l, In c (map (fun sr : Server * ServerStatus =>
                     StatusEvent (server_id (fst sr)) (name (fst sr)) (snd sr)) l) ->
                   exists sr, In sr l /\
                     c = StatusEvent (server_id (fst sr)) (name (fst sr)) (snd sr)).
    { intros l H. apply in_map_iff in H as (sr & <- & Hin). eauto. }
    assert (Hfin : forall sr, In sr (stream_statuses name_le r ids w) ->
              c = StatusEvent (server_id (fst sr)) (name (fst sr)) (snd sr) ->
              match c with
              | StatusEvent sid server_name row =>
                  exists key srv o,
                    servers w !! key = Some srv /\ statuses w !! key = Some row /\
                    sid = server_id srv /\ server_name = name srv /\
                    organization srv = Some o /\
                    In (req_user r, org_id o) (memberships w) /\
                    (forall f, status_filter r = Some f -> f <> "" -> status row = f) /\
                    (forall since, since_dt r = Some since ->
                                   since < status_updated_at row)
              | PingEvent sid server_name p =>
                  exists srv o,
                    servers w !! ping_server p = Some srv /\ In p (pings w) /\
                    sid = server_id srv /\ server_name = name srv /\
                    organization srv = Some o /\
                    In (req_user r, org_id o) (memberships w) /\
                    (forall since, since_dt r = Some since -> since < check_timestamp p)
              | _ => True
              end).
    { intros sr Hin ->. destruct (Hstatus ids sr Hin) as (key & o & H1 & H2 & H3 & H4 & H5 & H6).
      exists key, (fst sr), o. repeat split; auto. }
    destruct (ping_limit r <? 0); cbn.
    + intros [<-|H]; [exact I|].
      destruct (Hs _ H) as (sr & Hin & Hc). exact (Hfin sr Hin Hc).
    + intros [<-|H]; [exact I|].
      apply in_app_or in H as [H|H].
      * destruct (Hs _ H) as (sr & Hin & Hc). exact (Hfin sr Hin Hc).
      * apply in_app_or in H as [H|[<-|[]]]; [|exact I].
        apply in_map_iff in H as (sp & <- & Hin).
        apply list_elem_of_In, subseteq_take, list_elem_of_In in Hin.
        destruct (Hping ids sp Hin) as (o & H1 & H2 & H3 & H4 & H5).
        exists (fst sp), o. repeat split; auto.
  - intros [<-|[]]. exact I.
Qed.

Lemma ping_times_app (l1 l2 : list Chunk) :
  ping_times (l1 ++ l2) = (ping_times l1 ++ ping_times l2)%list.
Proof. apply omap_app. Qed.

Lemma stream_pings_sorted r ids w :
  StronglySorted by_check_timestamp_desc (stream_pings r ids w).
Proof.
  unfold stream_pings.
  apply (@StronglySorted_merge_sort _ by_check_timestamp_desc _).
  - intros a b c. unfold by_check_timestamp_desc. lia.
  - intros a b. unfold by_check_timestamp_desc. lia.
Qed.

Lemma StronglySorted_timestamps (l : list (Server * PingResult)) :
  StronglySorted by_check_timestamp_desc l ->
  StronglySorted (fun a b : datetime => b <= a)
    (map (fun sp => check_timestamp (snd sp)) l).
Proof.
  induction 1 as [|x l Hl IH Hx]; cbn; constructor; [exact IH|].
  apply Forall_forall. intros t Ht.
  apply list_elem_of_In, in_map_iff in Ht as (y & <- & Hy).
  rewrite Forall_forall in Hx. apply Hx, list_elem_of_In, Hy.
Qed.

(** X23. The ping events of a stream come newest first, and the limit
    keeps the newest: the check timestamps of the ping events never
    increase along the stream, and a ping that the limit cut off is
    never newer than a ping that is shown. *)
Theorem X23_pings_newest_first (r : StreamRequest) (w : World) :
  StronglySorted (fun a b : datetime => b <= a) (ping_times (fst (stream r w))) /\
  (forall ids t sp,
     id_filter int_of_str r = Some ids ->
     In t (ping_times (fst (stream r w))) ->
     In sp (drop (Z.to_nat (ping_limit r)) (stream_pings r ids w)) ->
     check_timestamp (snd sp) <= t).
Proof.
  unfold event_stream.
  destruct (id_filter int_of_str r) as [ids|]; cbn.
  - destruct (ping_limit r <? 0); cbn [fst].
    + change (ping_times (Retry 5000 :: ?l)) with (ping_times l).
      rewrite ping_times_status_events.
      split; [constructor|]. intros ? t sp _ [].
    + change (ping_times (Retry 5000 :: ?l)) with (ping_times l).
      rewrite !ping_times_app, ping_times_status_events, ping_times_ping_events.
      cbn. rewrite app_nil_r.
      pose proof (stream_pings_sorted r ids w) as Hsorted.
      rewrite <- (take_drop (Z.to_nat (ping_limit r)) (stream_pings r ids w)) in Hsorted.
      split.
      * apply StronglySorted_timestamps.
        exact (StronglySorted_app_1_l _ _ _ Hsorted).
      * intros ids' t sp [= <-] Ht Hsp.
        apply in_map_iff in Ht as (shown & <- & Hshown).
        apply (StronglySorted_app_1_elem_of _ _ _ shown sp Hsorted);
          apply list_elem_of_In; assumption.
  - split; [constructor|]. intros ids t sp Hids. discriminate.
Qed.

End StreamExtras.

(** ** Credits across a cycle *)

Lemma get_account_in server w a :
  _get_account server w = Some a -> In a (accounts w).
Proof.
  unfold _get_account, org_billing_account, user_billing_account.
  intros Hget.
  assert (Howner : match owner server with
                   | Some u => List.find (fun a0 => bool_decide
                                 (account_user a0 = Some (user_id u))) (accounts w)
                   | None => None
                   end = Some a -> In a (accounts w)).
  { destruct (owner server); [|discriminate].
    intros Hf. apply find_some in Hf as [Hin _]. exact Hin. }
  destruct (organization server) as [o|]; [|exact (Howner Hget)].
  destruct (List.find _ (accounts w)) as [b|] eqn:Horg; [|exact (Howner Hget)].
  injection Hget as ->. apply find_some in Horg as [Hin _]. exact Hin.
Qed.

Lemma save_account_forall (P : UserAccount -> Prop) a' tbl :
  Forall P tbl -> P a' -> Forall P (save_account a' tbl).
Proof.
  intros Htbl Ha. unfold save_account. apply Forall_forall. intros r Hr.
  apply list_elem_of_In, in_map_iff in Hr as (r0 & <- & Hin).
  destruct (account_id r0 =? account_id a'); [exact Ha|].
  rewrite Forall_forall in Htbl. apply Htbl, list_elem_of_In, Hin.
Qed.

Section CreditExtras.

Variable timezone_now : nat -> datetime.
Variables email_enabled sms_enabled twilio_installed : bool.
Variables twilio_account_sid twilio_auth_token twilio_phone_number : option string.
Variable transport : nat -> Delivery -> bool.
Variable service : Server -> CheckData.
Variables running_loop channel_layer : bool.
Variable name_le : string -> string -> bool.

Abbreviation notify_one :=
  (notify_config timezone_now email_enabled sms_enabled twilio_installed
     twilio_account_sid twilio_auth_token twilio_phone_number transport).
Abbreviation notify :=
  (notify_status_change timezone_now email_enabled sms_enabled twilio_installed
     twilio_account_sid twilio_auth_token twilio_phone_number transport).
Abbreviation check_one :=
  (check_server timezone_now email_enabled sms_enabled twilio_installed
     twilio_account_sid twilio_auth_token twilio_phone_number transport service
     running_loop channel_layer).
Abbreviation check_all :=
  (check_servers timezone_now email_enabled sms_enabled twilio_installed
     twilio_account_sid twilio_auth_token twilio_phone_number transport service
     running_loop channel_layer).
Abbreviation run_cycle :=
  (run_all_checks timezone_now email_enabled sms_enabled twilio_installed
     twilio_account_sid twilio_auth_token twilio_phone_number transport service
     running_loop channel_layer name_le).
Abbreviation checked := (servers_checked name_le).

Lemma send_email_credits server st c rec w :
  credits_nonneg w ->
  credits_nonneg (_send_email timezone_now email_enabled transport server st c rec w).
Proof.
  intros Hw. unfold _send_email.
  destruct email_enabled; cbn; [|exact Hw].
  destruct (_get_account server w) as [a|] eqn:Hget.
  - destruct (Z.leb_spec (email_credits a) 0) as [_|Hpos]; [exact Hw|].
    unfold hand_off. cbn. destruct (transport _ _); cbn; [|exact Hw].
    unfold consume_email.
    destruct (Z.leb_spec (email_credits a) 0) as [Hle|_]; [lia|].
    unfold stamp, now, credits_nonneg. cbn -[save_account].
    apply save_account_forall; [exact Hw|]. cbn.
    unfold credits_nonneg in Hw. rewrite Forall_forall in Hw.
    destruct (Hw a) as [Hs _]; [apply list_elem_of_In, (get_account_in server), Hget|].
    lia.
  - unfold hand_off, stamp, now. cbn. destruct (transport _ _); exact Hw.
Qed.

Lemma send_sms_credits server st c rec w :
  credits_nonneg w ->
  credits_nonneg (_send_sms timezone_now sms_enabled twilio_installed
                    twilio_account_sid twilio_auth_token twilio_phone_number
                    transport server st c rec w).
Proof.
  intros Hw. unfold _send_sms.
  destruct sms_enabled; cbn; [|exact Hw].
  destruct (_get_account server w) as [a|] eqn:Hget.
  - destruct (Z.leb_spec (sms_credits a) 0) as [_|Hpos]; [exact Hw|].
    destruct twilio_installed; cbn; [|exact Hw].
    destruct (_ && _); cbn; [|exact Hw].
    unfold hand_off. cbn. destruct (transport _ _); cbn; [|exact Hw].
    unfold consume_sms.
    destruct (Z.leb_spec (sms_credits a) 0) as [Hle|_]; [lia|].
    unfold stamp, now, credits_nonneg. cbn -[save_account].
    apply save_account_forall; [exact Hw|]. cbn.
    unfold credits_nonneg in Hw. rewrite Forall_forall in Hw.
    destruct (Hw a) as [_ He]; [apply list_elem_of_In, (get_account_in server), Hget|].
    lia.
  - destruct twilio_installed; cbn; [|exact Hw].
    destruct (_ && _); cbn; [|exact Hw].
    unfold hand_off, stamp, now. cbn. destruct (transport _ _); exact Hw.
Qed.

Lemma notify_config_credits server st prev rec w c :
  credits_nonneg w -> credits_nonneg (notify_one server st prev rec w c).
Proof.
  intros Hw. unfold notify_config.
  destruct (_can_send_notification timezone_now c w) as [can w1] eqn:Hcan.
  assert (Hw1 : credits_nonneg w1).
  { unfold _can_send_notification, now in Hcan.
    destruct (updated_at c); injection Hcan as _ <-; exact Hw. }
  destruct can; cbn; [|exact Hw1].
  destruct (String.eqb _ "email"); [apply send_email_credits, Hw1|].
  destruct (String.eqb _ "sms"); [apply send_sms_credits, Hw1|].
  destruct (String.eqb _ "webhook"); [|exact Hw1].
  unfold _send_webhook, hand_off, stamp, now. cbn.
  destruct (transport _ _); exact Hw1.
Qed.

Lemma notify_credits server st prev w :
  credits_nonneg w -> credits_nonneg (notify server st prev w).
Proof.
  intros Hw. unfold notify_status_change.
  destruct (_ && _); [exact Hw|].
  destruct (_ && _); [exact Hw|].
  apply (fold_left_invariant credits_nonneg); [|exact Hw].
  intros x c. apply notify_config_credits.
Qed.

Lemma check_server_credits t send w server :
  credits_nonneg w -> credits_nonneg (fst (check_one t send w server)).
Proof.
  intros Hw.
  unfold check_server, create_ping, get_or_create, save_status, insert_timestamps,
    now, notify_subscribers, _group_send.
  cbn. destruct (statuses w !! server_id server); cbn;
    (match goal with |- context [if ?b && _ then _ else _] => destruct b end); cbn;
    (match goal with
     | |- context [if negb ?b then _ else _] => destruct b
     | _ => idtac
     end); cbn;
    try apply notify_credits;
    destruct running_loop, channel_layer; exact Hw.
Qed.

(** X24. A cycle never drives a credit counter below zero: when no
    account of the store has a negative SMS or email counter before a
    cycle, none has one after it, however many servers change status
    and however many configs are notified from the same account. *)
Theorem X24_credits_stay_nonnegative
    (now_arg : option datetime) (queryset : option (list Server))
    (send_notifications : bool) (w : World) :
  credits_nonneg w ->
  credits_nonneg (fst (run_cycle now_arg queryset send_notifications w)).
Proof.
  intros Hw. unfold run_all_checks.
  assert (Hloop : forall q t x, credits_nonneg x ->
            credits_nonneg (fst (check_all t send_notifications q x))).
  { induction q as [|server rest IH]; intros t x Hx; [exact Hx|].
    cbn [check_servers].
    destruct (check_one t send_notifications x server) as [x1 res] eqn:Hstep.
    specialize (IH t x1).
    destruct (check_all t send_notifications rest x1) as [x2 rs]. cbn in *.
    apply IH. change x1 with (fst (x1, res)). rewrite <- Hstep.
    apply check_server_credits, Hx. }
  destruct now_arg as [t|]; cbn; apply Hloop; exact Hw.
Qed.

End CreditExtras.

(** ** Manual trigger *)

Section TriggerExtras.

Variable timezone_now : nat -> datetime.
Variables email_enabled sms_enabled twilio_installed : bool.
Variables twilio_account_sid twilio_auth_token twilio_phone_number : option string.
Variable transport : nat -> Delivery -> bool.
Variable service : Server -> CheckData.
Variables running_loop channel_layer : bool.
Variable name_le : string -> string -> bool.
Variable membership_role : Z -> Z -> string.

Abbreviation trigger :=
  (run_checks_post timezone_now email_enabled sms_enabled twilio_installed
     twilio_account_sid twilio_auth_token twilio_phone_number transport service
     running_loop channel_layer name_le membership_role).

Lemma servers_of_orgs_spec org_ids w srv :
  In srv (servers_of_orgs name_le org_ids w) ->
  (exists key, servers w !! key = Some srv) /\
  exists o, organization srv = Some o /\ In (org_id o) org_ids.
Proof.
  unfold servers_of_orgs. intros Hin.
  apply server_objects_filter_In in Hin as [Hkey Horg].
  split; [exact Hkey|].
  destruct (organization srv) as [o|]; [|discriminate].
  exists o. split; [reflexivity|].
  apply bool_decide_eq_true in Horg. apply list_elem_of_In, Horg.
Qed.

Lemma trigger_org_ids_spec user w org_ids oid :
  trigger_org_ids membership_role user w = Some org_ids ->
  In oid org_ids ->
  In (ru_id user, oid) (memberships w) /\
  (is_staff user = false ->
     membership_role (ru_id user) oid = "owner" \/
     membership_role (ru_id user) oid = "admin").
Proof.
  unfold trigger_org_ids. destruct (is_staff user).
  - intros [= <-] Hin. unfold _organization_ids in Hin.
    apply in_map_iff in Hin as ([u g] & Hg & Hin).
    apply filter_In in Hin as [Hin Hu]. cbn in Hg, Hu.
    apply Z.eqb_eq in Hu. subst. split; [exact Hin|discriminate].
  - intros Hids Hin.
    assert (Hin' : In oid (admin_org_ids membership_role (ru_id user) w)).
    { destruct (admin_org_ids membership_role (ru_id user) w); [discriminate|].
      injection Hids as <-. exact Hin. }
    unfold admin_org_ids in Hin'.
    apply in_map_iff in Hin' as ([u g] & Hg & Hm).
    apply filter_In in Hm as [Hm Hrole]. cbn in Hg, Hrole.
    apply andb_true_iff in Hrole as [Hu Hrole]. apply Z.eqb_eq in Hu. subst.
    split; [exact Hm|]. intros _.
    unfold Py.str_in in Hrole. cbn in Hrole.
    destruct (String.eqb_spec (membership_role (ru_id user) oid) "owner");
      [left; assumption|].
    destruct (String.eqb_spec (membership_role (ru_id user) oid) "admin");
      [right; assumption|discriminate].
Qed.

(** X25. The manual trigger is refused, and nothing is run or written,
    exactly for a user who is not staff and has no [owner] or [admin]
    membership.  When it runs, the count it returns is the length of the
    result list, and every result is the probe outcome of a stored
    server of an organization the user is a member of and, unless the
    user is staff, an owner or admin of. *)
Theorem X25_manual_trigger (user : RequestUser) (w : World) :
  (snd (trigger user w) = ChecksDenied <->
     is_staff user = false /\
     admin_org_ids membership_role (ru_id user) w = []) /\
  (snd (trigger user w) = ChecksDenied -> fst (trigger user w) = w) /\
  (forall count results,
     snd (trigger user w) = ChecksRan count results ->
     count = length results /\
     forall sid outcome,
       In (sid, outcome) results ->
       exists key srv o,
         servers w !! key = Some srv /\
         sid = server_id srv /\
         outcome = cd_status (service srv) /\
         organization srv = Some o /\
         In (ru_id user, org_id o) (memberships w) /\
         (is_staff user = false ->
            membership_role (ru_id user) (org_id o) = "owner" \/
            membership_role (ru_id user) (org_id o) = "admin")).
Proof.
  unfold run_checks_post.
  destruct (trigger_org_ids membership_role user w) as [org_ids|] eqn:Hids.
  - assert (Hran : forall q,
              snd (run_all_checks timezone_now email_enabled sms_enabled
                     twilio_installed twilio_account_sid twilio_auth_token
                     twilio_phone_number transport service running_loop
                     channel_layer name_le None (Some q) true w)
              = map (fun s => (server_id s, cd_status (service s))) q).
    { intros q.
      destruct (run_all_checks_unfold timezone_now email_enabled sms_enabled
                  twilio_installed twilio_account_sid twilio_auth_token
                  twilio_phone_number transport service running_loop
                  channel_layer name_le None (Some q) true w)
        as (w1 & -> & _).
      apply check_servers_log. }
    assert (Hnot : ~ (is_staff user = false /\
                      admin_org_ids membership_role (ru_id user) w = [])).
    { intros [Hs Ha]. unfold trigger_org_ids in Hids. rewrite Hs, Ha in Hids.
      discriminate. }
    destruct org_ids as [|oid rest].
    + cbn. split; [split; [discriminate|intros H; destruct (Hnot H)]|].
      split; [discriminate|]. intros count results [= <- <-].
      split; [reflexivity|]. intros sid outcome [].
    + specialize (Hran (servers_of_orgs name_le (oid :: rest) w)).
      destruct (run_all_checks _ _ _ _ _ _ _ _ _ _ _ _ _ _ _ w) as [w1 results] eqn:Hrun.
      cbn in Hran |- *.
      split; [split; [discriminate|intros H; destruct (Hnot H)]|].
      split; [discriminate|]. intros count results' [= <- <-].
      split; [reflexivity|]. intros sid outcome Hin. rewrite Hran in Hin.
      apply in_map_iff in Hin as (srv & [= <- <-] & Hsrv).
      destruct (servers_of_orgs_spec _ _ _ Hsrv) as ((key & Hkey) & o & Ho & Hino).
      destruct (trigger_org_ids_spec user w _ (org_id o) Hids Hino) as (Hm & Hrole).
      exists key, srv, o. auto 8.
  - cbn. split; [|split; [reflexivity|discriminate]].
    split; [|reflexivity]. intros _.
    unfold trigger_org_ids in Hids.
    destruct (is_staff user); [discriminate|].
    destruct (admin_org_ids membership_role (ru_id user) w); [auto|discriminate].
Qed.

End TriggerExtras.

(** ** Further instances on the sample data *)

Lemma X7_cycle_leaves_other_rows_witness :
  statuses (fst (run_all_checks sample_clock true true true (Some "AC00")
                   (Some "token") (Some "+15550000000") (fun _ _ => true)
                   (fun _ => check_failure) false true String.leb (Some 10) (Some [sample_server]) true
                   (mkWorld {[ 1 := sample_server ]} [(7, 5)]
                      {[ 2 := status_row "down" 3 3 ]} [] [] [] [] [] [] 0)))
    !! 2 = Some (status_row "down" 3 3).
Proof.
  etransitivity.
  - apply (X7_cycle_leaves_other_rows sample_clock true true true (Some "AC00")
             (Some "token") (Some "+15550000000") (fun _ _ => true)
             (fun _ => check_failure) false true String.leb (Some 10) (Some [sample_server]) true).
    cbn. intros [H|[]]. discriminate.
  - reflexivity.
Defined.

Lemma X9_no_notification_without_change_witness :
  outbox (fst (check_server sample_clock true true true (Some "AC00")
                 (Some "token") (Some "+15550000000") (fun _ _ => true)
                 (fun _ => check_failure) false true 10 true
                 (watched_world (status_row "down" 3 3)) sample_server)) = [] /\
  outbox (fst (check_server sample_clock true true true (Some "AC00")
                 (Some "token") (Some "+15550000000") (fun _ _ => true)
                 (fun _ => check_success) false true 10 true
                 (watched_world (status_row "down" 3 3)) sample_server))
  = [(delivery Email "api-server" "up" "ops@example.com" true None, true)].
Proof.
  split.
  - apply (X9_no_notification_without_change sample_clock true true true
             (Some "AC00") (Some "token") (Some "+15550000000") (fun _ _ => true)
             (fun _ => check_failure) false true 10 true
             (watched_world (status_row "down" 3 3)) sample_server).
    reflexivity.
  - vm_compute. reflexivity.
Defined.

Lemma X14_no_success_no_write_witness :
  configs (notify_config sample_clock true true true (Some "AC00") (Some "token")
             (Some "+15550000000") (fun _ _ => false) sample_server
             (status_row "down" 3 3) (Some "up") false
             (sample_world [sample_config "email"] [sample_account 0 2])
             (sample_config "email"))
  = [sample_config "email"] /\
  accounts (notify_config sample_clock true true true (Some "AC00") (Some "token")
              (Some "+15550000000") (fun _ _ => false) sample_server
              (status_row "down" 3 3) (Some "up") false
              (sample_world [sample_config "email"] [sample_account 0 2])
              (sample_config "email"))
  = [sample_account 0 2].
Proof.
  apply (X14_no_success_no_write sample_clock true true true (Some "AC00")
           (Some "token") (Some "+15550000000") (fun _ _ => false) sample_server
           (status_row "down" 3 3) (Some "up") false
           (sample_world [sample_config "email"] [sample_account 0 2])
           (sample_config "email")).
  intros d H. vm_compute in H. discriminate.
Defined.

Lemma X15_success_starts_cooldown_witness :
  Forall (fun r => updated_at r = Some 3603000000)
    (configs (notify_config sample_clock true true true (Some "AC00")
                (Some "token") (Some "+15550000000") (fun _ _ => true)
                sample_server (status_row "down" 3 3) (Some "up") false
                (sample_world [sample_config "webhook"] [])
                (sample_config "webhook"))).
Proof.
  destruct (X15_success_starts_cooldown sample_clock true true true (Some "AC00")
              (Some "token") (Some "+15550000000") (fun _ _ => true) sample_server
              (status_row "down" 3 3) (Some "up") false
              (sample_world [sample_config "webhook"] []) (sample_config "webhook")
              (delivery Webhook "api-server" "down" "ops@example.com" false (Some "up"))
              eq_refl) as (_ & _ & _ & Hstamp).
  apply Forall_forall. intros r Hin. apply list_elem_of_In in Hin.
  apply (Hstamp r Hin).
  vm_compute in Hin. destruct Hin as [<-|[]]. reflexivity.
Defined.

(** The stamp of an email charged to an account, and of one that is
    not: the save of the account takes one reading more. *)
Example email_stamps :
  map updated_at
    (configs (notify_config sample_clock true true true (Some "AC00")
                (Some "token") (Some "+15550000000") (fun _ _ => true)
                sample_server (status_row "down" 3 3) (Some "up") false
                (sample_world [sample_config "email"] [sample_account 0 2])
                (sample_config "email")))
  = [Some 3603000000] /\
  map updated_at
    (configs (notify_config sample_clock true true true (Some "AC00")
                (Some "token") (Some "+15550000000") (fun _ _ => true)
                sample_server (status_row "down" 3 3) (Some "up") false
                (sample_world [sample_config "email"] [])
                (sample_config "email")))
  = [Some 3602000000].
Proof. split; vm_compute; reflexivity. Qed.

Lemma X16_webhook_is_unmetered_witness :
  accounts (notify_config sample_clock false false false None None None
              (fun _ _ => true) sample_server (status_row "down" 3 3) (Some "up") false
              (sample_world [sample_config "webhook"] [sample_account 0 0])
              (sample_config "webhook"))
  = [sample_account 0 0].
Proof.
  apply (X16_webhook_is_unmetered sample_clock false false false None None None
           (fun _ _ => true) sample_server (status_row "down" 3 3) (Some "up") false
           (sample_world [sample_config "webhook"] [sample_account 0 0])
           (sample_config "webhook")); reflexivity.
Defined.

Lemma X22_stream_isolation_witness :
  exists key srv o,
    servers checked_world !! key = Some srv /\
    statuses checked_world !! key = Some (status_row "up" 3 0) /\
    1 = server_id srv /\
    "api-server" = name srv /\
    organization srv = Some o /\
    In (7, org_id o) (memberships checked_world) /\
    (forall f, Some "up" = Some f -> f <> "" -> "up" = f) /\
    (forall since, Some (-1) = Some since -> since < 0).
Proof.
  apply (X22_stream_isolation (fun _ => None) String.leb
           {| req_user := 7; status_filter := Some "up"; server_ids := None;
              since_dt := Some (-1); ping_limit := 50 |}
           checked_world (StatusEvent 1 "api-server" (status_row "up" 3 0))).
  vm_compute. right. left. reflexivity.
Defined.

Lemma X24_credits_stay_nonnegative_witness :
  credits_nonneg
    (fst (run_all_checks sample_clock true true true (Some "AC00") (Some "token")
            (Some "+15550000000") (fun _ _ => true) (fun _ => check_failure) false true String.leb
            (Some 10) (Some [sample_server]) true
            (sample_world [sample_config "email"] [sample_account 0 1]))).
Proof.
  apply (X24_credits_stay_nonnegative sample_clock true true true (Some "AC00")
           (Some "token") (Some "+15550000000") (fun _ _ => true)
           (fun _ => check_failure) false true String.leb (Some 10) (Some [sample_server]) true).
  repeat constructor; cbn; lia.
Defined.

(** A cycle over the default queryset goes through the active servers
    in the order of their names, whatever their ids are, and leaves the
    server under maintenance out: "api-server" comes before "db-primary"
    in the byte order of names, and after it in the reverse order. *)
Example cycle_in_name_order :
  let cycle name_le :=
    snd (run_all_checks sample_clock true true true (Some "AC00") (Some "token")
           (Some "+15550000000") (fun _ _ => true) (fun _ => check_failure)
           false true name_le (Some 10) None true fleet_world) in
  cycle String.leb = [(1, "failure"); (2, "failure")] /\
  cycle (fun a b => String.leb b a) = [(2, "failure"); (1, "failure")].
Proof. cbv zeta. split; vm_compute; reflexivity. Qed.

(** The fan-out of that cycle with a channel layer, without one, and
    under a running event loop. *)
Example fan_out_branches :
  let groups_of l := map b_group l in
  let cycle running_loop channel_layer :=
    fst (run_all_checks sample_clock true true true (Some "AC00") (Some "token")
           (Some "+15550000000") (fun _ _ => true) (fun _ => check_failure)
           running_loop channel_layer String.leb (Some 10) None true fleet_world) in
  groups_of (broadcasts (cycle false true)) = ["server_1"; "server_2"] /\
  groups_of (scheduled (cycle false true)) = [] /\
  groups_of (broadcasts (cycle false false)) = [] /\
  groups_of (scheduled (cycle false false)) = [] /\
  groups_of (broadcasts (cycle true true)) = [] /\
  groups_of (scheduled (cycle true true)) = ["server_1"; "server_2"].
Proof. cbv zeta. repeat split; vm_compute; reflexivity. Qed.

(** The clock readings of one iteration that creates the status row:
    two for the ping, two for the insert of the row, one for its save;
    the row carries the last one. *)
Example iteration_clock :
  let w' := fst (check_server sample_clock true true true (Some "AC00")
                   (Some "token") (Some "+15550000000") (fun _ _ => true)
                   (fun _ => check_success) false true 10 true
                   (sample_world [] []) sample_server) in
  clock_reads w' = 5%nat /\
  (status_updated_at <$> statuses w' !! 1) = Some 3604000000.
Proof. cbv zeta. split; vm_compute; reflexivity. Qed.

(** A cycle that sends the last email credit away. *)
Example last_credit_spent :
  map email_credits
    (accounts
       (fst (run_all_checks sample_clock true true true (Some "AC00") (Some "token")
               (Some "+15550000000") (fun _ _ => true) (fun _ => check_failure) false true String.leb
               (Some 10) (Some [sample_server]) true
               (sample_world [sample_config "email"] [sample_account 0 1]))))
  = [0].
Proof. vm_compute. reflexivity. Qed.

(** The manual trigger of a member without an admin role, and of an
    owner. *)
Example trigger_denied :
  snd (run_checks_post sample_clock true true true (Some "AC00") (Some "token")
         (Some "+15550000000") (fun _ _ => true) (fun _ => check_failure) false true String.leb
         (fun _ _ => "member") (mkRequestUser 7 false) checked_world)
  = ChecksDenied.
Proof. vm_compute. reflexivity. Qed.

Example trigger_runs :
  snd (run_checks_post sample_clock true true true (Some "AC00") (Some "token")
         (Some "+15550000000") (fun _ _ => true) (fun _ => check_failure) false true String.leb
         (fun _ _ => "owner") (mkRequestUser 7 false) checked_world)
  = ChecksRan 1 [(1, "failure")].
Proof. vm_compute. reflexivity. Qed.
